(** * Commander state machine helper

    A shallow embedding of [src/modules/commander/state_machine_helper.cpp]:
    the arming state machine, the safety interlock check, the main state
    (flight mode) selector, the HIL state transition and the navigation
    state / failsafe resolver, followed by the properties proved of them.

    Conventions of the embedding.
    - A C [struct] passed by pointer and written through becomes a record
      that the function takes and returns.
    - Diagnostics ([mavlink_log_critical], [warnx], ...), the sensor
      blocking [ioctl] and [orb_publish] are recorded, in program order, in a
      list of [event]s returned by the function.
    - An access outside a static array and a failed [ASSERT] do not produce
      a result: the function returns [Fault].
    - [irqsave]/[irqrestore] bracket the update of [arming_state_transition];
      the embedding is sequential, so the bracket has no counterpart. *)

From Stdlib Require Import Bool List String ZArith Lia.
Import ListNotations.

Local Open Scope string_scope.

(** ** Enumerations of [uORB/topics/vehicle_status.h] *)

(** Modelled from the spec: the declaration of [arming_state_t] is in
    [uORB/topics/vehicle_status.h], which is not among the sources.  The
    seven states are those the spec lists, in the order of the [state_names]
    table and of the header comment of [arming_transitions].
    [ARMING_STATE_MAX] closes the enumeration and counts the states: the
    source sizes both tables with it and asserts
    [ARMING_STATE_IN_AIR_RESTORE == ARMING_STATE_MAX - 1], as
    [main_state_transition] has a [case MAIN_STATE_MAX] for the counting
    enumerator of [main_state_t]. *)
Inductive arming_state_t : Set :=
| ARMING_STATE_INIT
| ARMING_STATE_STANDBY
| ARMING_STATE_ARMED
| ARMING_STATE_ARMED_ERROR
| ARMING_STATE_STANDBY_ERROR
| ARMING_STATE_REBOOT
| ARMING_STATE_IN_AIR_RESTORE
| ARMING_STATE_MAX.

(** The integer value of an enumerator, used to index the static tables. *)
Definition arming_state_value (s : arming_state_t) : nat :=
  match s with
  | ARMING_STATE_INIT => 0
  | ARMING_STATE_STANDBY => 1
  | ARMING_STATE_ARMED => 2
  | ARMING_STATE_ARMED_ERROR => 3
  | ARMING_STATE_STANDBY_ERROR => 4
  | ARMING_STATE_REBOOT => 5
  | ARMING_STATE_IN_AIR_RESTORE => 6
  | ARMING_STATE_MAX => 7
  end.

(** One of the seven states of the arming state machine, as opposed to the
    counting enumerator. *)
Definition is_arming_state (s : arming_state_t) : bool :=
  Nat.ltb (arming_state_value s) (arming_state_value ARMING_STATE_MAX).

(** Modelled from the spec: [main_state_t] of the missing header, with the
    enumerators that [main_state_transition] switches over. *)
Inductive main_state_t : Set :=
| MAIN_STATE_MANUAL
| MAIN_STATE_ALTCTL
| MAIN_STATE_POSCTL
| MAIN_STATE_AUTO_MISSION
| MAIN_STATE_AUTO_LOITER
| MAIN_STATE_AUTO_RTL
| MAIN_STATE_ACRO
| MAIN_STATE_MAX.

(** Modelled from the spec: [hil_state_t] of the missing header. *)
Inductive hil_state_t : Set :=
| HIL_STATE_OFF
| HIL_STATE_ON.

(** Modelled from the spec: [navigation_state_t] of the missing header, with
    the enumerators that [set_nav_state] assigns. *)
Inductive navigation_state_t : Set :=
| NAVIGATION_STATE_MANUAL
| NAVIGATION_STATE_ALTCTL
| NAVIGATION_STATE_POSCTL
| NAVIGATION_STATE_AUTO_MISSION
| NAVIGATION_STATE_AUTO_LOITER
| NAVIGATION_STATE_AUTO_RTL
| NAVIGATION_STATE_ACRO
| NAVIGATION_STATE_LAND
| NAVIGATION_STATE_DESCEND
| NAVIGATION_STATE_TERMINATION.

Inductive transition_result_t : Set :=
| TRANSITION_DENIED
| TRANSITION_NOT_CHANGED
| TRANSITION_CHANGED.

Definition arming_state_eq_dec (a b : arming_state_t) : {a = b} + {a <> b}.
Proof. decide equality. Defined.

Definition main_state_eq_dec (a b : main_state_t) : {a = b} + {a <> b}.
Proof. decide equality. Defined.

Definition hil_state_eq_dec (a b : hil_state_t) : {a = b} + {a <> b}.
Proof. decide equality. Defined.

Definition navigation_state_eq_dec (a b : navigation_state_t) : {a = b} + {a <> b}.
Proof. decide equality. Defined.

(** The C comparisons [a == b] and [a != b] on enumeration values. *)
Definition arming_eqb (a b : arming_state_t) : bool :=
  if arming_state_eq_dec a b then true else false.

Definition main_eqb (a b : main_state_t) : bool :=
  if main_state_eq_dec a b then true else false.

Definition hil_eqb (a b : hil_state_t) : bool :=
  if hil_state_eq_dec a b then true else false.

Definition nav_eqb (a b : navigation_state_t) : bool :=
  if navigation_state_eq_dec a b then true else false.

(** ** Structures *)

(** The fields of [struct vehicle_status_s] that the file reads or writes. *)
Record vehicle_status_s : Set := mk_vehicle_status {
  timestamp : Z;
  main_state : main_state_t;
  nav_state : navigation_state_t;
  arming_state : arming_state_t;
  hil_state : hil_state_t;
  failsafe : bool;
  is_rotary_wing : bool;
  condition_system_sensors_initialized : bool;
  condition_local_position_valid : bool;
  condition_global_position_valid : bool;
  condition_local_altitude_valid : bool;
  condition_home_position_valid : bool;
  rc_signal_lost : bool;
  data_link_lost : bool
}.

Record safety_s : Set := mk_safety {
  safety_switch_available : bool;
  safety_off : bool
}.

Record actuator_armed_s : Set := mk_actuator_armed {
  armed : bool;
  ready_to_arm : bool;
  lockdown : bool
}.

(** Field assignments. *)
Definition set_timestamp (s : vehicle_status_s) (v : Z) : vehicle_status_s :=
  mk_vehicle_status v (main_state s) (nav_state s) (arming_state s)
    (hil_state s) (failsafe s) (is_rotary_wing s)
    (condition_system_sensors_initialized s) (condition_local_position_valid s)
    (condition_global_position_valid s) (condition_local_altitude_valid s)
    (condition_home_position_valid s) (rc_signal_lost s) (data_link_lost s).

Definition set_main_state (s : vehicle_status_s) (v : main_state_t) : vehicle_status_s :=
  mk_vehicle_status (timestamp s) v (nav_state s) (arming_state s)
    (hil_state s) (failsafe s) (is_rotary_wing s)
    (condition_system_sensors_initialized s) (condition_local_position_valid s)
    (condition_global_position_valid s) (condition_local_altitude_valid s)
    (condition_home_position_valid s) (rc_signal_lost s) (data_link_lost s).

Definition set_nav (s : vehicle_status_s) (v : navigation_state_t) : vehicle_status_s :=
  mk_vehicle_status (timestamp s) (main_state s) v (arming_state s)
    (hil_state s) (failsafe s) (is_rotary_wing s)
    (condition_system_sensors_initialized s) (condition_local_position_valid s)
    (condition_global_position_valid s) (condition_local_altitude_valid s)
    (condition_home_position_valid s) (rc_signal_lost s) (data_link_lost s).

Definition set_arming_state (s : vehicle_status_s) (v : arming_state_t) : vehicle_status_s :=
  mk_vehicle_status (timestamp s) (main_state s) (nav_state s) v
    (hil_state s) (failsafe s) (is_rotary_wing s)
    (condition_system_sensors_initialized s) (condition_local_position_valid s)
    (condition_global_position_valid s) (condition_local_altitude_valid s)
    (condition_home_position_valid s) (rc_signal_lost s) (data_link_lost s).

Definition set_hil_state (s : vehicle_status_s) (v : hil_state_t) : vehicle_status_s :=
  mk_vehicle_status (timestamp s) (main_state s) (nav_state s) (arming_state s)
    v (failsafe s) (is_rotary_wing s)
    (condition_system_sensors_initialized s) (condition_local_position_valid s)
    (condition_global_position_valid s) (condition_local_altitude_valid s)
    (condition_home_position_valid s) (rc_signal_lost s) (data_link_lost s).

Definition set_failsafe (s : vehicle_status_s) (v : bool) : vehicle_status_s :=
  mk_vehicle_status (timestamp s) (main_state s) (nav_state s) (arming_state s)
    (hil_state s) v (is_rotary_wing s)
    (condition_system_sensors_initialized s) (condition_local_position_valid s)
    (condition_global_position_valid s) (condition_local_altitude_valid s)
    (condition_home_position_valid s) (rc_signal_lost s) (data_link_lost s).

Definition set_armed (a : actuator_armed_s) (v : bool) : actuator_armed_s :=
  mk_actuator_armed v (ready_to_arm a) (lockdown a).

Definition set_ready_to_arm (a : actuator_armed_s) (v : bool) : actuator_armed_s :=
  mk_actuator_armed (armed a) v (lockdown a).

Definition set_lockdown (a : actuator_armed_s) (v : bool) : actuator_armed_s :=
  mk_actuator_armed (armed a) (ready_to_arm a) v.

(** ** Effects *)

(** What the functions send to their collaborators. *)
Inductive event : Set :=
| mavlink_log_critical (fd : Z) (msg : string)
| mavlink_log_info (fd : Z) (msg : string)
| warnx (msg : string)
| warn (msg : string)
| printf (msg : string)
| ioctl_DEVIOCSPUBBLOCK (devname : string)
| orb_publish_vehicle_status (status_pub : Z) (status : vehicle_status_s).

(** Why a call produces no result. *)
Inductive fault : Set :=
| AssertionFailed
| OutOfBounds.

Inductive exec (A : Type) : Type :=
| Done (a : A)
| Fault (f : fault).

Arguments Done {A} a.
Arguments Fault {A} f.

Definition bind {A B : Type} (c : exec A) (k : A -> exec B) : exec B :=
  match c with
  | Done a => k a
  | Fault f => Fault f
  end.

Notation "x <- c ;; k" := (bind c (fun x => k))
  (at level 61, c at next level, right associativity).
Notation "c ;;; k" := (bind c (fun _ => k))
  (at level 61, right associativity).

Definition ASSERT (b : bool) : exec unit :=
  if b then Done tt else Fault AssertionFailed.

(** Reading element [i] of a static array. *)
Definition array_get {A : Type} (a : list A) (i : nat) : exec A :=
  match nth_error a i with
  | Some x => Done x
  | None => Fault OutOfBounds
  end.

(** ** Arming state machine *)

(** Rows are the new state, columns the current state. *)
Definition arming_transitions : list (list bool) :=
  (*                                INIT;  STANDBY; ARMED; ARMED_ERROR; STANDBY_ERROR; REBOOT; IN_AIR_RESTORE *)
  [ (* ARMING_STATE_INIT *)           [true;  true;    false; false;       false;         false;  false];
    (* ARMING_STATE_STANDBY *)        [true;  true;    true;  true;        false;         false;  false];
    (* ARMING_STATE_ARMED *)          [false; true;    true;  false;       false;         false;  true];
    (* ARMING_STATE_ARMED_ERROR *)    [false; false;   true;  true;        false;         false;  false];
    (* ARMING_STATE_STANDBY_ERROR *)  [true;  true;    false; true;        true;          false;  false];
    (* ARMING_STATE_REBOOT *)         [true;  true;    false; false;       true;          true;   true];
    (* ARMING_STATE_IN_AIR_RESTORE *) [false; false;   false; false;       false;         false;  false] ].

Definition state_names : list string :=
  [ "ARMING_STATE_INIT";
    "ARMING_STATE_STANDBY";
    "ARMING_STATE_ARMED";
    "ARMING_STATE_ARMED_ERROR";
    "ARMING_STATE_STANDBY_ERROR";
    "ARMING_STATE_REBOOT";
    "ARMING_STATE_IN_AIR_RESTORE" ].

(** [arming_transitions[new_state][current_state]]. *)
Definition arming_transitions_at (new_state current_state : arming_state_t) : exec bool :=
  row <- array_get arming_transitions (arming_state_value new_state) ;;
  array_get row (arming_state_value current_state).

(** [state_names[s]]. *)
Definition state_names_at (s : arming_state_t) : exec string :=
  array_get state_names (arming_state_value s).

(** The format ["Invalid arming transition from %s to %s"]. *)
Definition errMsg (from to : string) : string :=
  "Invalid arming transition from " ++ from ++ " to " ++ to.

(** [if (mavlink_fd) { mavlink_log_critical(mavlink_fd, msg); }] *)
Definition log_critical_if (mavlink_fd : Z) (msg : string) : list event :=
  if Z.eqb mavlink_fd 0 then [] else [mavlink_log_critical mavlink_fd msg].

(** The result of [arming_state_transition]: the returned value, the status
    and armed records as the call leaves them, and the diagnostics sent. *)
Record arming_result : Set := mk_arming_result {
  ar_ret : transition_result_t;
  ar_status : vehicle_status_s;
  ar_armed : actuator_armed_s;
  ar_log : list event
}.

(** The secondary validation of a transition that the table allows (the body
    of [if (valid_transition) { ... }]): the possibly cleared
    [valid_transition], the possibly redirected [new_arming_state], and the
    diagnostic sent. *)
Definition secondary_validation (status : vehicle_status_s) (safety : safety_s)
    (new_arming_state : arming_state_t) (mavlink_fd : Z)
  : bool * arming_state_t * list event :=
  if arming_eqb new_arming_state ARMING_STATE_ARMED then
    if negb (arming_eqb (arming_state status) ARMING_STATE_IN_AIR_RESTORE)
       && hil_eqb (hil_state status) HIL_STATE_OFF
       && safety_switch_available safety
       && negb (safety_off safety)
    then
      (false, new_arming_state,
       log_critical_if mavlink_fd "#audio: NOT ARMING: Press safety switch first.")
    else (true, new_arming_state, [])
  else if arming_eqb new_arming_state ARMING_STATE_STANDBY
          && arming_eqb (arming_state status) ARMING_STATE_ARMED_ERROR
  then (true, ARMING_STATE_STANDBY_ERROR, [])
  else (true, new_arming_state, []).

Definition arming_state_transition (status : vehicle_status_s) (safety : safety_s)
    (new_arming_state : arming_state_t) (armed0 : actuator_armed_s)
    (mavlink_fd : Z) : exec arming_result :=
  (* Double check that our static arrays are still valid *)
  ASSERT (Nat.eqb (arming_state_value ARMING_STATE_INIT) 0) ;;;
  ASSERT (Nat.eqb (arming_state_value ARMING_STATE_IN_AIR_RESTORE)
                  (arming_state_value ARMING_STATE_MAX - 1)) ;;;
  (* only check transition if the new state is actually different from the
     current one *)
  if arming_eqb new_arming_state (arming_state status) then
    Done (mk_arming_result TRANSITION_NOT_CHANGED status armed0 [])
  else
    (* enforce lockdown in HIL *)
    let armed1 :=
      if hil_eqb (hil_state status) HIL_STATE_ON
      then set_lockdown armed0 true
      else set_lockdown armed0 false in
    (* Check that we have a valid state transition *)
    valid_transition <- arming_transitions_at new_arming_state (arming_state status) ;;
    let '(valid_transition, new_arming_state, log) :=
      if valid_transition
      then secondary_validation status safety new_arming_state mavlink_fd
      else (valid_transition, new_arming_state, []) in
    (* HIL can always go to standby *)
    let valid_transition :=
      if hil_eqb (hil_state status) HIL_STATE_ON
         && arming_eqb new_arming_state ARMING_STATE_STANDBY
      then true else valid_transition in
    (* Sensors need to be initialized for STANDBY state *)
    let valid_transition :=
      if arming_eqb new_arming_state ARMING_STATE_STANDBY
         && negb (condition_system_sensors_initialized status)
      then false else valid_transition in
    (* Finish up the state transition *)
    if valid_transition then
      let armed2 :=
        set_armed armed1
          (arming_eqb new_arming_state ARMING_STATE_ARMED
           || arming_eqb new_arming_state ARMING_STATE_ARMED_ERROR) in
      let armed3 :=
        set_ready_to_arm armed2
          (arming_eqb new_arming_state ARMING_STATE_ARMED
           || arming_eqb new_arming_state ARMING_STATE_STANDBY) in
      Done (mk_arming_result TRANSITION_CHANGED
              (set_arming_state status new_arming_state) armed3 log)
    else
      (* ret == TRANSITION_DENIED *)
      from <- state_names_at (arming_state status) ;;
      to <- state_names_at new_arming_state ;;
      Done (mk_arming_result TRANSITION_DENIED status armed1
              (log ++ log_critical_if mavlink_fd (errMsg from to)
                   ++ [warnx (errMsg from to)])).

(** ** Safety interlock check *)

Definition is_safe (status : vehicle_status_s) (safety : safety_s)
    (armed0 : actuator_armed_s) : bool :=
  (* System is safe if:
     1) Not armed
     2) Armed, but in software lockdown (HIL)
     3) Safety switch is present AND engaged -> actuators locked *)
  if negb (armed armed0)
     || (armed armed0 && lockdown armed0)
     || (safety_switch_available safety && negb (safety_off safety))
  then true
  else false.

(** ** Main state (flight mode) selector *)

Definition main_state_transition (status : vehicle_status_s)
    (new_main_state : main_state_t) : transition_result_t * vehicle_status_s :=
  (* transition may be denied even if the same state is requested because
     conditions may have changed *)
  let ret :=
    match new_main_state with
    | MAIN_STATE_MANUAL
    | MAIN_STATE_ACRO => TRANSITION_CHANGED
    | MAIN_STATE_ALTCTL =>
        (* need at minimum altitude estimate *)
        if negb (is_rotary_wing status)
           || (condition_local_altitude_valid status
               || condition_global_position_valid status)
        then TRANSITION_CHANGED else TRANSITION_DENIED
    | MAIN_STATE_POSCTL =>
        (* need at minimum local position estimate *)
        if condition_local_position_valid status
           || condition_global_position_valid status
        then TRANSITION_CHANGED else TRANSITION_DENIED
    | MAIN_STATE_AUTO_MISSION
    | MAIN_STATE_AUTO_LOITER =>
        (* need global position estimate *)
        if condition_global_position_valid status
        then TRANSITION_CHANGED else TRANSITION_DENIED
    | MAIN_STATE_AUTO_RTL =>
        (* need global position and home position *)
        if condition_global_position_valid status
           && condition_home_position_valid status
        then TRANSITION_CHANGED else TRANSITION_DENIED
    | MAIN_STATE_MAX => TRANSITION_DENIED
    end in
  match ret with
  | TRANSITION_CHANGED =>
      if negb (main_eqb (main_state status) new_main_state)
      then (TRANSITION_CHANGED, set_main_state status new_main_state)
      else (TRANSITION_NOT_CHANGED, status)
  | _ => (ret, status)
  end.

(** ** HIL state transition

    [hil_state_t] has two values, so the [default] branch of the [switch]
    ("Unknown HIL state") has no counterpart below. *)

(** What [hil_state_transition] observes of the system it runs on. *)
Record devices : Type := mk_devices {
  (* the names read from the directory [/dev], in the order [readdir] gives
     them; [None] when [opendir] fails *)
  dev_entries : option (list string);
  (* whether [::open(devname, 0)] gives a descriptor *)
  dev_opens : string -> bool;
  (* whether [ioctl(sensfd, DEVIOCSPUBBLOCK, 1)] returns [OK] *)
  dev_blocks : string -> bool;
  (* the value [hrt_absolute_time()] returns *)
  hrt_absolute_time : Z
}.

(** The line feed that ends the [printf] format. *)
Definition newline : string := String (Ascii.ascii_of_nat 10) EmptyString.

(** [!strncmp(p, name, 3)] for a three character [p]. *)
Definition strncmp3_eq (p name : string) : bool :=
  String.eqb p (String.substring 0 3 name).

(** [snprintf(devname, sizeof(devname), "/dev/%s", d_name)] with
    [char devname[24]]: at most 23 characters are kept. *)
Definition devname_of (d_name : string) : string :=
  String.substring 0 23 ("/dev/" ++ d_name).

(** One iteration of the [readdir] loop. *)
Definition block_entry (w : devices) (d_name : string) : list event :=
  if strncmp3_eq "tty" d_name then []        (* skip serial ports *)
  else if strncmp3_eq "mtd" d_name then []   (* skip mtd devices *)
  else if strncmp3_eq "ram" d_name then []   (* skip ram devices *)
  else if strncmp3_eq "mmc" d_name then []   (* skip MMC devices *)
  else if String.eqb "mavlink" d_name then []
  else if String.eqb "console" d_name then []
  else if String.eqb "null" d_name then []
  else
    let devname := devname_of d_name in
    if negb (dev_opens w devname) then
      [warn ("failed opening device " ++ devname)]
    else
      [ioctl_DEVIOCSPUBBLOCK devname;
       printf ("Disabling " ++ devname ++ ": "
               ++ (if dev_blocks w devname then "OK" else "ERROR") ++ newline)].

Fixpoint block_entries (w : devices) (entries : list string) : list event :=
  match entries with
  | [] => []
  | d_name :: rest => (block_entry w d_name ++ block_entries w rest)%list
  end.

Definition hil_state_transition (w : devices) (new_state : hil_state_t)
    (status_pub : Z) (current_status : vehicle_status_s) (mavlink_fd : Z)
  : transition_result_t * vehicle_status_s * list event :=
  let '(ret, log) :=
    if hil_eqb (hil_state current_status) new_state then
      (TRANSITION_NOT_CHANGED, [])
    else
      match new_state with
      | HIL_STATE_OFF =>
          (* we're in HIL and unexpected things can happen if we disable HIL
             now *)
          (TRANSITION_DENIED,
           [mavlink_log_critical mavlink_fd "#audio: Not switching off HIL (safety)"])
      | HIL_STATE_ON =>
          if arming_eqb (arming_state current_status) ARMING_STATE_INIT
             || arming_eqb (arming_state current_status) ARMING_STATE_STANDBY
             || arming_eqb (arming_state current_status) ARMING_STATE_STANDBY_ERROR
          then
            (* Disable publication of all attached sensors *)
            match dev_entries w with
            | Some entries =>
                (TRANSITION_CHANGED,
                 (block_entries w entries
                  ++ [mavlink_log_critical mavlink_fd "Switched to ON hil state"])%list)
            | None =>
                (* failed opening dir *)
                (TRANSITION_DENIED,
                 [mavlink_log_info mavlink_fd "FAILED LISTING DEVICE ROOT DIRECTORY"])
            end
          else
            (TRANSITION_DENIED,
             [mavlink_log_critical mavlink_fd "Not switching to HIL when armed"])
      end in
  match ret with
  | TRANSITION_CHANGED =>
      let status1 := set_hil_state current_status new_state in
      let status2 := set_timestamp status1 (hrt_absolute_time w) in
      (ret, status2, (log ++ [orb_publish_vehicle_status status_pub status2])%list)
  | _ => (ret, current_status, log)
  end.

(** ** Navigation state and failsafe *)

Definition set_nav_state (status : vehicle_status_s) : bool * vehicle_status_s :=
  let nav_state_old := nav_state status in
  let armed0 :=
    arming_eqb (arming_state status) ARMING_STATE_ARMED
    || arming_eqb (arming_state status) ARMING_STATE_ARMED_ERROR in
  let status := set_failsafe status false in
  (* evaluate main state to decide in normal (non-failsafe) mode *)
  let status :=
    match main_state status with
    | MAIN_STATE_ACRO
    | MAIN_STATE_MANUAL
    | MAIN_STATE_ALTCTL
    | MAIN_STATE_POSCTL =>
        (* require RC for all manual modes *)
        if rc_signal_lost status && armed0 then set_failsafe status true
        else
          match main_state status with
          | MAIN_STATE_ACRO => set_nav status NAVIGATION_STATE_ACRO
          | MAIN_STATE_MANUAL => set_nav status NAVIGATION_STATE_MANUAL
          | MAIN_STATE_ALTCTL => set_nav status NAVIGATION_STATE_ALTCTL
          | MAIN_STATE_POSCTL => set_nav status NAVIGATION_STATE_POSCTL
          | _ => set_nav status NAVIGATION_STATE_MANUAL
          end
    | MAIN_STATE_AUTO_MISSION =>
        (* require data link and global position *)
        if (data_link_lost status || negb (condition_global_position_valid status))
           && armed0
        then set_failsafe status true
        else if armed0 then set_nav status NAVIGATION_STATE_AUTO_MISSION
        else set_nav status NAVIGATION_STATE_AUTO_LOITER
    | MAIN_STATE_AUTO_LOITER =>
        (* require data link and local position *)
        if (data_link_lost status || negb (condition_local_position_valid status))
           && armed0
        then set_failsafe status true
        else set_nav status NAVIGATION_STATE_AUTO_LOITER
    | MAIN_STATE_AUTO_RTL =>
        (* require global position and home *)
        if (negb (condition_global_position_valid status)
            || negb (condition_home_position_valid status))
           && armed0
        then set_failsafe status true
        else if armed0 then set_nav status NAVIGATION_STATE_AUTO_RTL
        else set_nav status NAVIGATION_STATE_AUTO_LOITER
    | MAIN_STATE_MAX => status
    end in
  let status :=
    if failsafe status then
      if condition_global_position_valid status && condition_home_position_valid status
      then set_nav status NAVIGATION_STATE_AUTO_RTL
      else if condition_local_position_valid status
      then set_nav status NAVIGATION_STATE_LAND
      else if condition_local_altitude_valid status
      then set_nav status NAVIGATION_STATE_DESCEND
      else set_nav status NAVIGATION_STATE_TERMINATION
    else status in
  (negb (nav_eqb (nav_state status) nav_state_old), status).

(** * Properties *)

(** ** Comparisons and table accesses *)

Lemma arming_eqb_refl (s : arming_state_t) : arming_eqb s s = true.
Proof. unfold arming_eqb. destruct (arming_state_eq_dec s s); congruence. Qed.

Lemma arming_eqb_true (a b : arming_state_t) : arming_eqb a b = true <-> a = b.
Proof.
  unfold arming_eqb. destruct (arming_state_eq_dec a b); split; congruence.
Qed.

Lemma arming_eqb_false (a b : arming_state_t) : arming_eqb a b = false <-> a <> b.
Proof.
  unfold arming_eqb. destruct (arming_state_eq_dec a b); split; congruence.
Qed.

Lemma hil_eqb_true (a b : hil_state_t) : hil_eqb a b = true <-> a = b.
Proof.
  unfold hil_eqb. destruct (hil_state_eq_dec a b); split; congruence.
Qed.

Lemma main_eqb_true (a b : main_state_t) : main_eqb a b = true <-> a = b.
Proof.
  unfold main_eqb. destruct (main_state_eq_dec a b); split; congruence.
Qed.

(** The two entry assertions of [arming_state_transition] hold. *)
Lemma entry_assertions_hold :
  ASSERT (Nat.eqb (arming_state_value ARMING_STATE_INIT) 0) = Done tt /\
  ASSERT (Nat.eqb (arming_state_value ARMING_STATE_IN_AIR_RESTORE)
                  (arming_state_value ARMING_STATE_MAX - 1)) = Done tt.
Proof. split; reflexivity. Qed.

(** The transition table is read inside its bounds exactly for the seven
    states. *)
Lemma arming_transitions_at_defined (n c : arming_state_t) :
  is_arming_state n = true -> is_arming_state c = true ->
  exists b, arming_transitions_at n c = Done b.
Proof.
  destruct n, c; simpl; intros Hn Hc; try discriminate; eexists; reflexivity.
Qed.

Lemma arming_transitions_at_row_max (c : arming_state_t) :
  arming_transitions_at ARMING_STATE_MAX c = Fault OutOfBounds.
Proof. reflexivity. Qed.

Lemma arming_transitions_at_column_max (n : arming_state_t) :
  arming_transitions_at n ARMING_STATE_MAX = Fault OutOfBounds.
Proof. destruct n; reflexivity. Qed.

Lemma state_names_at_defined (s : arming_state_t) :
  is_arming_state s = true -> exists name, state_names_at s = Done name.
Proof. destruct s; simpl; intros H; try discriminate; eexists; reflexivity. Qed.

(** The secondary validation keeps the requested state among the seven. *)
Lemma secondary_validation_state (st : vehicle_status_s) (sf : safety_s)
    (n : arming_state_t) (fd : Z) :
  is_arming_state n = true ->
  is_arming_state (snd (fst (secondary_validation st sf n fd))) = true.
Proof.
  intros Hn. unfold secondary_validation.
  destruct (arming_eqb n ARMING_STATE_ARMED).
  - destruct (_ && _); exact Hn.
  - destruct (_ && _); [reflexivity | exact Hn].
Qed.

(** On the seven states the call returns a result. *)
Lemma arming_state_transition_returns (st : vehicle_status_s) (sf : safety_s)
    (n : arming_state_t) (ar : actuator_armed_s) (fd : Z) :
  is_arming_state n = true ->
  is_arming_state (arming_state st) = true ->
  exists res, arming_state_transition st sf n ar fd = Done res.
Proof.
  intros Hn Hc. unfold arming_state_transition. simpl.
  destruct (arming_eqb n (arming_state st)); [eexists; reflexivity |].
  destruct (arming_transitions_at_defined n (arming_state st) Hn Hc) as [b ->].
  simpl.
  pose proof (secondary_validation_state st sf n fd Hn) as Hsec.
  destruct b.
  - destruct (secondary_validation st sf n fd) as [[v n'] l]. simpl in Hsec.
    match goal with |- context [if ?c then Done _ else _] => destruct c end;
      [eexists; reflexivity |].
    destruct (state_names_at_defined _ Hc) as [from ->].
    destruct (state_names_at_defined _ Hsec) as [to ->].
    eexists; reflexivity.
  - match goal with |- context [if ?c then Done _ else _] => destruct c end;
      [eexists; reflexivity |].
    destruct (state_names_at_defined _ Hc) as [from ->].
    destruct (state_names_at_defined _ Hn) as [to ->].
    eexists; reflexivity.
Qed.

(** ** Arming state machine *)

(** Closes [exists res, f ... = Done res /\ P res] once the call has been
    evaluated: the result is read off, and [P] is left to prove of it. *)
Ltac returns := eexists; (split; [reflexivity |]); simpl.

(** Sample inputs used by the examples below. *)
Definition sample_status (a : arming_state_t) (h : hil_state_t)
    (sensors_initialized : bool) : vehicle_status_s :=
  mk_vehicle_status 0 MAIN_STATE_MANUAL NAVIGATION_STATE_MANUAL a h false true
    sensors_initialized false false false false false false.

Definition disarmed : actuator_armed_s := mk_actuator_armed false false false.

(** C7. Requesting the state the vehicle is already in returns
    [TRANSITION_NOT_CHANGED] and leaves the status and the armed record as
    they were, whatever the state, the safety input and the armed record; the
    transition table is not consulted and nothing is logged. *)
Theorem arming_same_state_not_changed (st : vehicle_status_s) (sf : safety_s)
    (ar : actuator_armed_s) (fd : Z) :
  arming_state_transition st sf (arming_state st) ar fd
  = Done (mk_arming_result TRANSITION_NOT_CHANGED st ar []).
Proof.
  unfold arming_state_transition. simpl.
  rewrite arming_eqb_refl. reflexivity.
Qed.

(** The table plays no part in C7: it marks
    [IN_AIR_RESTORE -> IN_AIR_RESTORE] illegal, and the request still returns
    [TRANSITION_NOT_CHANGED]. *)
Example in_air_restore_same_state :
  arming_transitions_at ARMING_STATE_IN_AIR_RESTORE ARMING_STATE_IN_AIR_RESTORE
  = Done false /\
  arming_state_transition (sample_status ARMING_STATE_IN_AIR_RESTORE HIL_STATE_OFF true)
    (mk_safety true false) ARMING_STATE_IN_AIR_RESTORE disarmed 0%Z
  = Done (mk_arming_result TRANSITION_NOT_CHANGED
            (sample_status ARMING_STATE_IN_AIR_RESTORE HIL_STATE_OFF true)
            disarmed []).
Proof. split; reflexivity. Qed.

(** The three ways a call returns: what it committed in each. *)
Lemma arming_state_transition_inv (st : vehicle_status_s) (sf : safety_s)
    (n : arming_state_t) (ar : actuator_armed_s) (fd : Z) (res : arming_result) :
  arming_state_transition st sf n ar fd = Done res ->
  (ar_ret res = TRANSITION_NOT_CHANGED /\ n = arming_state st /\
   ar_status res = st /\ ar_armed res = ar)
  \/ (ar_ret res = TRANSITION_DENIED /\ n <> arming_state st /\
      ar_status res = st /\
      ar_armed res = set_lockdown ar (hil_eqb (hil_state st) HIL_STATE_ON))
  \/ (ar_ret res = TRANSITION_CHANGED /\ n <> arming_state st /\
      lockdown (ar_armed res) = hil_eqb (hil_state st) HIL_STATE_ON /\
      armed (ar_armed res)
      = (arming_eqb (arming_state (ar_status res)) ARMING_STATE_ARMED
         || arming_eqb (arming_state (ar_status res)) ARMING_STATE_ARMED_ERROR) /\
      ready_to_arm (ar_armed res)
      = (arming_eqb (arming_state (ar_status res)) ARMING_STATE_ARMED
         || arming_eqb (arming_state (ar_status res)) ARMING_STATE_STANDBY)).
Proof.
  unfold arming_state_transition. simpl.
  destruct (arming_eqb n (arming_state st)) eqn:Hsame.
  - intros [= <-]. left. apply arming_eqb_true in Hsame. auto.
  - apply arming_eqb_false in Hsame.
    destruct (arming_transitions_at n (arming_state st)) as [b|]; simpl;
      [| discriminate].
    destruct (if b then secondary_validation st sf n fd else (b, n, []))
      as [[v n'] l].
    match goal with |- context [if ?c then Done _ else _] => destruct c end.
    + intros [= <-]. right. right. simpl.
      destruct (hil_eqb (hil_state st) HIL_STATE_ON); auto.
    + destruct (state_names_at (arming_state st)); simpl; [| discriminate].
      destruct (state_names_at n'); simpl; [| discriminate].
      intros [= <-]. right. left. simpl.
      destruct (hil_eqb (hil_state st) HIL_STATE_ON); auto.
Qed.

(** C1, as stated, fails: a denied request rewrites [armed->lockdown].  In HIL
    a request to arm from [INIT] is denied by the table, and the armed
    record, whose lockdown flag was clear, comes back with it set. *)
Lemma denied_transition_rewrites_lockdown :
  ~ (forall st sf n ar fd res,
        arming_state_transition st sf n ar fd = Done res ->
        ar_ret res <> TRANSITION_CHANGED ->
        ar_status res = st /\ ar_armed res = ar).
Proof.
  intros H.
  destruct (H (sample_status ARMING_STATE_INIT HIL_STATE_ON true)
              (mk_safety true false) ARMING_STATE_ARMED disarmed 0%Z _
              eq_refl) as [_ Harmed].
  - simpl. discriminate.
  - simpl in Harmed. discriminate.
Qed.

(** C1, amended. A call that does not return [TRANSITION_CHANGED] leaves the
    vehicle status and the [armed] and [ready_to_arm] flags as they were.
    When it returns [TRANSITION_NOT_CHANGED] the whole armed record is
    untouched; when it returns [TRANSITION_DENIED] the [lockdown] flag has
    been set to whether HIL is on. *)
Theorem arming_not_changed_frame (st : vehicle_status_s) (sf : safety_s)
    (n : arming_state_t) (ar : actuator_armed_s) (fd : Z) (res : arming_result) :
  arming_state_transition st sf n ar fd = Done res ->
  ar_ret res <> TRANSITION_CHANGED ->
  ar_status res = st /\
  armed (ar_armed res) = armed ar /\
  ready_to_arm (ar_armed res) = ready_to_arm ar /\
  (ar_ret res = TRANSITION_NOT_CHANGED -> ar_armed res = ar) /\
  (ar_ret res = TRANSITION_DENIED ->
   lockdown (ar_armed res) = hil_eqb (hil_state st) HIL_STATE_ON).
Proof.
  intros Hrun Hret.
  destruct (arming_state_transition_inv _ _ _ _ _ _ Hrun)
    as [(Hr & _ & Hst & Har) | [(Hr & _ & Hst & Har) | (Hr & _)]].
  - rewrite Hst, Har, Hr. repeat split; auto; discriminate.
  - rewrite Hst, Har, Hr. repeat split; auto; discriminate.
  - contradiction.
Qed.

Lemma arming_not_changed_frame_witness :
  let st := sample_status ARMING_STATE_INIT HIL_STATE_ON true in
  let res :=
    mk_arming_result TRANSITION_DENIED st (mk_actuator_armed false false true)
      [warnx "Invalid arming transition from ARMING_STATE_INIT to ARMING_STATE_ARMED"] in
  ar_status res = st /\
  armed (ar_armed res) = armed disarmed /\
  ready_to_arm (ar_armed res) = ready_to_arm disarmed /\
  (ar_ret res = TRANSITION_NOT_CHANGED -> ar_armed res = disarmed) /\
  (ar_ret res = TRANSITION_DENIED ->
   lockdown (ar_armed res) = hil_eqb (hil_state st) HIL_STATE_ON).
Proof.
  intros st res.
  apply (arming_not_changed_frame st (mk_safety true false) ARMING_STATE_ARMED
           disarmed 0%Z res).
  - reflexivity.
  - simpl. discriminate.
Defined.

(** C9. The call does not return a result on every input: a request for
    [ARMING_STATE_MAX], a value of [arming_state_t] outside the seven states,
    from any other state reads row 7 of the seven-row [arming_transitions]
    table.  Only when the status already holds that value does the call
    return, with [TRANSITION_NOT_CHANGED], before the table is read. *)
Theorem arming_request_max_out_of_bounds (st : vehicle_status_s) (sf : safety_s)
    (ar : actuator_armed_s) (fd : Z) :
  arming_state_transition st sf ARMING_STATE_MAX ar fd
  = if arming_eqb ARMING_STATE_MAX (arming_state st)
    then Done (mk_arming_result TRANSITION_NOT_CHANGED st ar [])
    else Fault OutOfBounds.
Proof.
  unfold arming_state_transition. simpl.
  destruct (arming_eqb ARMING_STATE_MAX (arming_state st)); reflexivity.
Qed.

(** The failing input of C9, evaluated. *)
Example arming_request_max_from_standby :
  arming_state_transition (sample_status ARMING_STATE_STANDBY HIL_STATE_OFF true)
    (mk_safety true false) ARMING_STATE_MAX disarmed 0%Z
  = Fault OutOfBounds.
Proof. reflexivity. Qed.

(** C5. From [ARMED_ERROR] a request for [STANDBY] returns
    [TRANSITION_CHANGED] and commits [STANDBY_ERROR], not [STANDBY], for every
    safety input, with or without HIL and whether or not the sensors are
    initialized; the vehicle is left disarmed and not ready to arm. *)
Theorem armed_error_to_standby_redirected (st : vehicle_status_s) (sf : safety_s)
    (ar : actuator_armed_s) (fd : Z) :
  arming_state st = ARMING_STATE_ARMED_ERROR ->
  exists res,
    arming_state_transition st sf ARMING_STATE_STANDBY ar fd = Done res /\
    ar_ret res = TRANSITION_CHANGED /\
    ar_status res = set_arming_state st ARMING_STATE_STANDBY_ERROR /\
    arming_state (ar_status res) = ARMING_STATE_STANDBY_ERROR /\
    arming_state (ar_status res) <> ARMING_STATE_STANDBY /\
    ar_armed res
    = mk_actuator_armed false false (hil_eqb (hil_state st) HIL_STATE_ON).
Proof.
  intros Hcur. unfold arming_state_transition, secondary_validation.
  rewrite Hcur. simpl.
  destruct (hil_eqb (hil_state st) HIL_STATE_ON); simpl;
    returns;
    repeat split; auto; discriminate.
Qed.

Lemma armed_error_to_standby_redirected_witness :
  exists res,
    arming_state_transition
      (sample_status ARMING_STATE_ARMED_ERROR HIL_STATE_OFF true)
      (mk_safety true false) ARMING_STATE_STANDBY
      (mk_actuator_armed true false false) 0%Z = Done res /\
    ar_ret res = TRANSITION_CHANGED /\
    ar_status res
    = set_arming_state (sample_status ARMING_STATE_ARMED_ERROR HIL_STATE_OFF true)
        ARMING_STATE_STANDBY_ERROR /\
    arming_state (ar_status res) = ARMING_STATE_STANDBY_ERROR /\
    arming_state (ar_status res) <> ARMING_STATE_STANDBY /\
    ar_armed res = mk_actuator_armed false false false.
Proof.
  apply (armed_error_to_standby_redirected
           (sample_status ARMING_STATE_ARMED_ERROR HIL_STATE_OFF true)).
  reflexivity.
Defined.

(** C2, as stated, fails for two current states.  From [STANDBY] the request
    is no transition and returns [TRANSITION_NOT_CHANGED]; from [ARMED_ERROR]
    it is redirected to [STANDBY_ERROR] and returns [TRANSITION_CHANGED]. *)
Lemma standby_without_sensors_not_always_denied :
  ~ (forall st sf ar fd,
        condition_system_sensors_initialized st = false ->
        exists res,
          arming_state_transition st sf ARMING_STATE_STANDBY ar fd = Done res /\
          ar_ret res = TRANSITION_DENIED /\
          arming_state (ar_status res) = arming_state st).
Proof.
  intros H.
  destruct (H (sample_status ARMING_STATE_STANDBY HIL_STATE_OFF false)
              (mk_safety true false) disarmed 0%Z eq_refl)
    as (res & Hrun & Hret & _).
  simpl in Hrun. injection Hrun as <-. simpl in Hret. discriminate.
Qed.

(** The same for the second state: the redirected request is granted. *)
Example standby_without_sensors_from_armed_error :
  arming_state_transition
    (sample_status ARMING_STATE_ARMED_ERROR HIL_STATE_OFF false)
    (mk_safety true false) ARMING_STATE_STANDBY
    (mk_actuator_armed true false false) 0%Z
  = Done (mk_arming_result TRANSITION_CHANGED
            (sample_status ARMING_STATE_STANDBY_ERROR HIL_STATE_OFF false)
            disarmed []).
Proof. reflexivity. Qed.

(** C2, amended. While the sensors are not initialized, a request for
    [STANDBY] from any of the seven states other than [STANDBY] and
    [ARMED_ERROR] returns [TRANSITION_DENIED] and leaves the status unchanged,
    for every safety input, whatever the table says and also in HIL.  From
    [STANDBY] it returns [TRANSITION_NOT_CHANGED] with the status unchanged,
    and from [ARMED_ERROR] it commits [STANDBY_ERROR]; in no case does the
    vehicle enter [STANDBY]. *)
Theorem standby_requires_sensors (st : vehicle_status_s) (sf : safety_s)
    (ar : actuator_armed_s) (fd : Z) :
  condition_system_sensors_initialized st = false ->
  is_arming_state (arming_state st) = true ->
  exists res,
    arming_state_transition st sf ARMING_STATE_STANDBY ar fd = Done res /\
    (arming_state st <> ARMING_STATE_STANDBY ->
     arming_state st <> ARMING_STATE_ARMED_ERROR ->
     ar_ret res = TRANSITION_DENIED /\ ar_status res = st) /\
    (arming_state st = ARMING_STATE_STANDBY ->
     ar_ret res = TRANSITION_NOT_CHANGED /\ ar_status res = st) /\
    (arming_state st = ARMING_STATE_ARMED_ERROR ->
     ar_ret res = TRANSITION_CHANGED /\
     arming_state (ar_status res) = ARMING_STATE_STANDBY_ERROR) /\
    (arming_state (ar_status res) = ARMING_STATE_STANDBY ->
     arming_state st = ARMING_STATE_STANDBY).
Proof.
  intros Hsens Hcur.
  unfold arming_state_transition, secondary_validation.
  rewrite Hsens.
  destruct (arming_state st) eqn:Ea; try discriminate Hcur; simpl;
    destruct (hil_eqb (hil_state st) HIL_STATE_ON); simpl;
    returns;
    repeat split; intros; solve [congruence | auto].
Qed.

Lemma standby_requires_sensors_witness :
  exists res,
    arming_state_transition (sample_status ARMING_STATE_ARMED HIL_STATE_ON false)
      (mk_safety false false) ARMING_STATE_STANDBY
      (mk_actuator_armed true true false) 0%Z = Done res /\
    ar_ret res = TRANSITION_DENIED /\
    ar_status res = sample_status ARMING_STATE_ARMED HIL_STATE_ON false.
Proof.
  destruct (standby_requires_sensors
              (sample_status ARMING_STATE_ARMED HIL_STATE_ON false)
              (mk_safety false false) (mk_actuator_armed true true false) 0%Z
              eq_refl eq_refl) as (res & Hrun & Hdenied & _).
  exists res. split; [exact Hrun |].
  apply Hdenied; simpl; discriminate.
Defined.

(** A request for [ARMED] while the vehicle is [ARMED] is no transition: it
    is answered by the same-state test, before the safety gate, and returns
    [TRANSITION_NOT_CHANGED] even with the safety switch present and engaged
    outside HIL (see C7).  The safety gate below therefore speaks of requests
    from another state. *)
Lemma arm_request_not_always_denied :
  ~ (forall st sf ar fd,
        arming_state st <> ARMING_STATE_IN_AIR_RESTORE ->
        hil_state st <> HIL_STATE_ON ->
        safety_switch_available sf = true ->
        safety_off sf = false ->
        exists res,
          arming_state_transition st sf ARMING_STATE_ARMED ar fd = Done res /\
          ar_ret res = TRANSITION_DENIED).
Proof.
  intros H.
  destruct (H (sample_status ARMING_STATE_ARMED HIL_STATE_OFF true)
              (mk_safety true false) (mk_actuator_armed true true false) 0%Z)
    as (res & Hrun & Hret); try reflexivity; try (simpl; discriminate).
  simpl in Hrun. injection Hrun as <-. simpl in Hret. discriminate.
Qed.

(** C3. A requested transition to [ARMED], that is a request for [ARMED]
    from another of the seven states, is denied, with the status unchanged,
    unless the current state is [IN_AIR_RESTORE], or HIL is on, or no safety
    switch is available, or the switch is available and off.  In particular from
    [STANDBY], outside HIL and with a switch present: while the switch is
    engaged the request is denied, and the same request with the switch
    disengaged returns [TRANSITION_CHANGED], commits [ARMED] and leaves
    [armed] and [ready_to_arm] both set. *)
Theorem arm_denied_unless_safety_cleared (st : vehicle_status_s) (sf : safety_s)
    (ar : actuator_armed_s) (fd : Z) :
  is_arming_state (arming_state st) = true ->
  arming_state st <> ARMING_STATE_ARMED ->
  arming_state st <> ARMING_STATE_IN_AIR_RESTORE ->
  hil_state st <> HIL_STATE_ON ->
  safety_switch_available sf = true ->
  safety_off sf = false ->
  (exists res,
      arming_state_transition st sf ARMING_STATE_ARMED ar fd = Done res /\
      ar_ret res = TRANSITION_DENIED /\ ar_status res = st) /\
  (arming_state st = ARMING_STATE_STANDBY ->
   exists res,
     arming_state_transition st (mk_safety (safety_switch_available sf) true)
       ARMING_STATE_ARMED ar fd = Done res /\
     ar_ret res = TRANSITION_CHANGED /\
     ar_status res = set_arming_state st ARMING_STATE_ARMED /\
     armed (ar_armed res) = true /\
     ready_to_arm (ar_armed res) = true).
Proof.
  intros Hcur Hna Hnr Hhil Hsw Hoff.
  unfold arming_state_transition, secondary_validation.
  rewrite Hsw, Hoff.
  destruct (hil_state st) eqn:Eh; [| congruence].
  destruct (arming_state st) eqn:Ea; try discriminate Hcur; try congruence;
    simpl; (split; [eexists; split; [reflexivity | split; reflexivity] |]);
    intros Hs; try discriminate Hs.
  returns. auto.
Qed.

Lemma arm_denied_unless_safety_cleared_witness :
  (exists res,
      arming_state_transition (sample_status ARMING_STATE_STANDBY HIL_STATE_OFF true)
        (mk_safety true false) ARMING_STATE_ARMED disarmed 0%Z = Done res /\
      ar_ret res = TRANSITION_DENIED /\
      ar_status res = sample_status ARMING_STATE_STANDBY HIL_STATE_OFF true) /\
  (exists res,
      arming_state_transition (sample_status ARMING_STATE_STANDBY HIL_STATE_OFF true)
        (mk_safety true true) ARMING_STATE_ARMED disarmed 0%Z = Done res /\
      ar_ret res = TRANSITION_CHANGED /\
      ar_status res = sample_status ARMING_STATE_ARMED HIL_STATE_OFF true /\
      armed (ar_armed res) = true /\
      ready_to_arm (ar_armed res) = true).
Proof.
  destruct (arm_denied_unless_safety_cleared
              (sample_status ARMING_STATE_STANDBY HIL_STATE_OFF true)
              (mk_safety true false) disarmed 0%Z)
    as [Hdenied Hchanged];
    try reflexivity; try (simpl; discriminate).
  split; [exact Hdenied | exact (Hchanged eq_refl)].
Defined.

(** The exceptions of C3 do lift the safety gate: from [STANDBY] each of
    them, HIL on, no switch, or the switch off, lets the request through. *)
Lemma arm_from_standby_granted (st : vehicle_status_s) (sf : safety_s)
    (ar : actuator_armed_s) (fd : Z) :
  arming_state st = ARMING_STATE_STANDBY ->
  hil_state st = HIL_STATE_ON \/ safety_switch_available sf = false
  \/ safety_off sf = true ->
  exists res,
    arming_state_transition st sf ARMING_STATE_ARMED ar fd = Done res /\
    ar_ret res = TRANSITION_CHANGED /\
    arming_state (ar_status res) = ARMING_STATE_ARMED.
Proof.
  intros Hcur Hgate.
  unfold arming_state_transition, secondary_validation. rewrite Hcur.
  destruct (hil_state st), (safety_switch_available sf), (safety_off sf);
    simpl; try (eexists; split; [reflexivity | split; reflexivity]);
    destruct Hgate as [H | [H | H]]; discriminate H.
Qed.

(** ** Safety interlock check *)

(** C10. [is_safe] does not read the vehicle status: two calls that differ
    only in the status agree, and the result is a function of [armed->armed],
    [armed->lockdown], [safety->safety_switch_available] and
    [safety->safety_off] alone. *)
Theorem is_safe_independent_of_status :
  (forall (st1 st2 : vehicle_status_s) (sf : safety_s) (ar : actuator_armed_s),
      is_safe st1 sf ar = is_safe st2 sf ar) /\
  (exists f : bool -> bool -> bool -> bool -> bool,
      forall (st : vehicle_status_s) (sf : safety_s) (ar : actuator_armed_s),
        is_safe st sf ar
        = f (armed ar) (lockdown ar) (safety_switch_available sf) (safety_off sf)).
Proof.
  split.
  - intros st1 st2 sf ar. reflexivity.
  - exists (fun a l sw off => negb a || (a && l) || (sw && negb off)).
    intros st sf ar. unfold is_safe.
    destruct (negb (armed ar) || armed ar && lockdown ar
              || safety_switch_available sf && negb (safety_off sf));
      reflexivity.
Qed.

(** The [ready_to_arm] flag does not enter the result either. *)
Lemma is_safe_agree (st1 st2 : vehicle_status_s) (sf1 sf2 : safety_s)
    (ar1 ar2 : actuator_armed_s) :
  armed ar1 = armed ar2 ->
  lockdown ar1 = lockdown ar2 ->
  safety_switch_available sf1 = safety_switch_available sf2 ->
  safety_off sf1 = safety_off sf2 ->
  is_safe st1 sf1 ar1 = is_safe st2 sf2 ar2.
Proof.
  intros Ha Hl Hs Ho. unfold is_safe. rewrite Ha, Hl, Hs, Ho. reflexivity.
Qed.

(** ** Main state selector *)

(** C6, as stated, fails: the test for [ALTCTL] reads the local altitude
    validity, not the local position validity.  A rotary-wing vehicle with a
    valid local position but no altitude estimate is denied. *)
Lemma altctl_not_granted_on_local_position :
  ~ (forall st,
        fst (main_state_transition st MAIN_STATE_ALTCTL) <> TRANSITION_DENIED
        <-> (is_rotary_wing st = false
             \/ condition_local_position_valid st = true
             \/ condition_global_position_valid st = true)).
Proof.
  intros H.
  apply (H (mk_vehicle_status 0 MAIN_STATE_MANUAL NAVIGATION_STATE_MANUAL
              ARMING_STATE_STANDBY HIL_STATE_OFF false true true
              true false false false false false)).
  - right. left. reflexivity.
  - reflexivity.
Qed.

(** C6, amended. A request for [ALTCTL] is granted exactly when the vehicle
    is not rotary-wing, or the local altitude or the global position is
    valid.  An ungranted request returns [TRANSITION_DENIED] and leaves the
    status, and so [main_state], unchanged; a granted one leaves
    [main_state] at [ALTCTL]. *)
Theorem altctl_granted_iff_altitude (st : vehicle_status_s) :
  (fst (main_state_transition st MAIN_STATE_ALTCTL) <> TRANSITION_DENIED
   <-> (is_rotary_wing st = false
        \/ condition_local_altitude_valid st = true
        \/ condition_global_position_valid st = true)) /\
  (fst (main_state_transition st MAIN_STATE_ALTCTL) = TRANSITION_DENIED ->
   snd (main_state_transition st MAIN_STATE_ALTCTL) = st) /\
  (fst (main_state_transition st MAIN_STATE_ALTCTL) <> TRANSITION_DENIED ->
   main_state (snd (main_state_transition st MAIN_STATE_ALTCTL))
   = MAIN_STATE_ALTCTL).
Proof.
  unfold main_state_transition.
  destruct (is_rotary_wing st), (condition_local_altitude_valid st),
    (condition_global_position_valid st); simpl;
    try (destruct (main_eqb (main_state st) MAIN_STATE_ALTCTL) eqn:Em; simpl;
         [apply main_eqb_true in Em |]);
    repeat split; intros; auto; try discriminate; intuition congruence.
Qed.

(** ** HIL state transition *)

(** A system whose device directory cannot be listed. *)
Definition no_devices : devices :=
  mk_devices None (fun _ => false) (fun _ => false) 0.

(** C8. With HIL on, a request to switch it off returns [TRANSITION_DENIED]
    and leaves the status, and so [hil_state], as it was, in every arming
    state and whatever the device directory holds; nothing is published. *)
Theorem hil_on_to_off_denied (w : devices) (status_pub : Z)
    (st : vehicle_status_s) (fd : Z) :
  hil_state st = HIL_STATE_ON ->
  hil_state_transition w HIL_STATE_OFF status_pub st fd
  = (TRANSITION_DENIED, st,
     [mavlink_log_critical fd "#audio: Not switching off HIL (safety)"])
  /\ hil_state (snd (fst (hil_state_transition w HIL_STATE_OFF status_pub st fd)))
     = HIL_STATE_ON.
Proof.
  intros Hon. unfold hil_state_transition. rewrite Hon. simpl. auto.
Qed.

Lemma hil_on_to_off_denied_witness :
  hil_state_transition no_devices HIL_STATE_OFF 1
    (sample_status ARMING_STATE_ARMED HIL_STATE_ON true) 0
  = (TRANSITION_DENIED, sample_status ARMING_STATE_ARMED HIL_STATE_ON true,
     [mavlink_log_critical 0 "#audio: Not switching off HIL (safety)"])
  /\ hil_state
       (snd (fst (hil_state_transition no_devices HIL_STATE_OFF 1
                    (sample_status ARMING_STATE_ARMED HIL_STATE_ON true) 0)))
     = HIL_STATE_ON.
Proof.
  apply (hil_on_to_off_denied no_devices 1
           (sample_status ARMING_STATE_ARMED HIL_STATE_ON true) 0).
  reflexivity.
Defined.

(** Switching HIL on is granted exactly from [INIT], [STANDBY] and
    [STANDBY_ERROR], provided the device directory can be listed. *)
Lemma hil_off_to_on (w : devices) (status_pub : Z) (st : vehicle_status_s)
    (fd : Z) :
  hil_state st = HIL_STATE_OFF ->
  fst (fst (hil_state_transition w HIL_STATE_ON status_pub st fd))
  = if (arming_eqb (arming_state st) ARMING_STATE_INIT
        || arming_eqb (arming_state st) ARMING_STATE_STANDBY
        || arming_eqb (arming_state st) ARMING_STATE_STANDBY_ERROR)
    then match dev_entries w with
         | Some _ => TRANSITION_CHANGED
         | None => TRANSITION_DENIED
         end
    else TRANSITION_DENIED.
Proof.
  intros Hoff. unfold hil_state_transition. rewrite Hoff. simpl.
  destruct (_ || _); [| reflexivity].
  destruct (dev_entries w); reflexivity.
Qed.

(** ** Navigation state and failsafe *)

(** Whether the vehicle counts as armed in [set_nav_state]. *)
Definition nav_armed (st : vehicle_status_s) : bool :=
  arming_eqb (arming_state st) ARMING_STATE_ARMED
  || arming_eqb (arming_state st) ARMING_STATE_ARMED_ERROR.

(** The validity flags and the main and arming states are not written. *)
Lemma set_nav_state_frame (st : vehicle_status_s) :
  let st' := snd (set_nav_state st) in
  main_state st' = main_state st /\
  arming_state st' = arming_state st /\
  hil_state st' = hil_state st /\
  condition_global_position_valid st' = condition_global_position_valid st /\
  condition_home_position_valid st' = condition_home_position_valid st /\
  condition_local_position_valid st' = condition_local_position_valid st /\
  condition_local_altitude_valid st' = condition_local_altitude_valid st.
Proof.
  unfold set_nav_state. destruct st as [ts ms ns a h fs rw si lp gp la hp rc dl].
  simpl.
  destruct ms; simpl;
    repeat match goal with
           | |- context [if ?c then _ else _] => destruct c; simpl
           end;
    repeat split.
Qed.

(** C4. Whenever [set_nav_state] leaves the failsafe flag set, the
    navigation state it leaves is the one picked by the cascade: [AUTO_RTL]
    if the global and the home position are both valid, else [LAND] if the
    local position is valid, else [DESCEND] if the local altitude is valid,
    else [TERMINATION]. *)
Theorem failsafe_nav_state_cascade (st : vehicle_status_s) :
  failsafe (snd (set_nav_state st)) = true ->
  nav_state (snd (set_nav_state st))
  = if condition_global_position_valid st && condition_home_position_valid st
    then NAVIGATION_STATE_AUTO_RTL
    else if condition_local_position_valid st then NAVIGATION_STATE_LAND
    else if condition_local_altitude_valid st then NAVIGATION_STATE_DESCEND
    else NAVIGATION_STATE_TERMINATION.
Proof.
  unfold set_nav_state. destruct st as [ts ms ns a h fs rw si lp gp la hp rc dl].
  simpl.
  destruct (arming_eqb a ARMING_STATE_ARMED || arming_eqb a ARMING_STATE_ARMED_ERROR);
    destruct ms, rc, dl, gp, hp, lp, la; simpl; intros Hfs;
    solve [reflexivity | discriminate Hfs].
Qed.

Lemma failsafe_nav_state_cascade_witness :
  nav_state
    (snd (set_nav_state
            (mk_vehicle_status 0 MAIN_STATE_AUTO_RTL NAVIGATION_STATE_AUTO_RTL
               ARMING_STATE_ARMED HIL_STATE_OFF false true true
               false true true false false false)))
  = NAVIGATION_STATE_DESCEND.
Proof.
  apply (failsafe_nav_state_cascade
           (mk_vehicle_status 0 MAIN_STATE_AUTO_RTL NAVIGATION_STATE_AUTO_RTL
              ARMING_STATE_ARMED HIL_STATE_OFF false true true
              false true true false false false)).
  reflexivity.
Defined.

(** The failsafe flag is set exactly when the vehicle is armed and the signal
    its mode requires is missing; the flag found on entry plays no part. *)
Lemma set_nav_state_failsafe (st : vehicle_status_s) :
  failsafe (snd (set_nav_state st))
  = nav_armed st
    && match main_state st with
       | MAIN_STATE_ACRO | MAIN_STATE_MANUAL
       | MAIN_STATE_ALTCTL | MAIN_STATE_POSCTL => rc_signal_lost st
       | MAIN_STATE_AUTO_MISSION =>
           data_link_lost st || negb (condition_global_position_valid st)
       | MAIN_STATE_AUTO_LOITER =>
           data_link_lost st || negb (condition_local_position_valid st)
       | MAIN_STATE_AUTO_RTL =>
           negb (condition_global_position_valid st)
           || negb (condition_home_position_valid st)
       | MAIN_STATE_MAX => false
       end.
Proof.
  unfold set_nav_state, nav_armed.
  destruct st as [ts ms ns a h fs rw si lp gp la hp rc dl]. simpl.
  destruct (arming_eqb a ARMING_STATE_ARMED || arming_eqb a ARMING_STATE_ARMED_ERROR);
    destruct ms, rc, dl, gp, lp, hp, la; reflexivity.
Qed.

(** * Further properties *)

(** ** Arming state machine: what a granted request commits *)

(** Case analysis over everything [arming_state_transition] branches on. *)
Ltac arming_cases st sf n :=
  destruct st as [ts ms ns a h fs rw si lp gp la hp rc dl], sf as [sw off];
  destruct n, a; try discriminate; destruct h, si, sw, off.

(** The state a granted request commits: the requested one, except that
    [STANDBY] asked from [ARMED_ERROR] becomes [STANDBY_ERROR]. *)
Definition committed_state (current requested : arming_state_t) : arming_state_t :=
  if arming_eqb requested ARMING_STATE_STANDBY
     && arming_eqb current ARMING_STATE_ARMED_ERROR
  then ARMING_STATE_STANDBY_ERROR
  else requested.

(** A granted request writes [arming_state] and nothing else of the status,
    sets [armed] exactly for [ARMED] and [ARMED_ERROR], [ready_to_arm] exactly
    for [ARMED] and [STANDBY], [lockdown] exactly in HIL, and logs nothing. *)
Theorem arming_changed_commits (st : vehicle_status_s) (sf : safety_s)
    (n : arming_state_t) (ar : actuator_armed_s) (fd : Z) (res : arming_result) :
  arming_state_transition st sf n ar fd = Done res ->
  ar_ret res = TRANSITION_CHANGED ->
  ar_status res = set_arming_state st (committed_state (arming_state st) n) /\
  armed (ar_armed res)
  = (arming_eqb (arming_state (ar_status res)) ARMING_STATE_ARMED
     || arming_eqb (arming_state (ar_status res)) ARMING_STATE_ARMED_ERROR) /\
  ready_to_arm (ar_armed res)
  = (arming_eqb (arming_state (ar_status res)) ARMING_STATE_ARMED
     || arming_eqb (arming_state (ar_status res)) ARMING_STATE_STANDBY) /\
  lockdown (ar_armed res) = hil_eqb (hil_state st) HIL_STATE_ON /\
  ar_log res = [].
Proof.
  intros Hrun Hret.
  arming_cases st sf n; simpl in Hrun;
    try discriminate Hrun; injection Hrun as <-;
    try discriminate Hret; repeat split.
Qed.

Lemma arming_changed_commits_witness :
  let st := sample_status ARMING_STATE_ARMED HIL_STATE_OFF true in
  let res :=
    mk_arming_result TRANSITION_CHANGED
      (sample_status ARMING_STATE_STANDBY HIL_STATE_OFF true)
      (mk_actuator_armed false true false) [] in
  ar_status res = set_arming_state st (committed_state (arming_state st) ARMING_STATE_STANDBY) /\
  armed (ar_armed res)
  = (arming_eqb (arming_state (ar_status res)) ARMING_STATE_ARMED
     || arming_eqb (arming_state (ar_status res)) ARMING_STATE_ARMED_ERROR) /\
  ready_to_arm (ar_armed res)
  = (arming_eqb (arming_state (ar_status res)) ARMING_STATE_ARMED
     || arming_eqb (arming_state (ar_status res)) ARMING_STATE_STANDBY) /\
  lockdown (ar_armed res) = hil_eqb (hil_state st) HIL_STATE_ON /\
  ar_log res = [].
Proof.
  intros st res.
  apply (arming_changed_commits st (mk_safety true false) ARMING_STATE_STANDBY
           (mk_actuator_armed true true false) 0%Z res); reflexivity.
Defined.

(** ** Arming state machine: the table and its overrides *)

(** A request for another state that the table marks illegal is denied, and
    the status is left as it was, unless it asks for [STANDBY] in HIL. *)
Theorem arming_illegal_pair_denied (st : vehicle_status_s) (sf : safety_s)
    (n : arming_state_t) (ar : actuator_armed_s) (fd : Z) :
  n <> arming_state st ->
  arming_transitions_at n (arming_state st) = Done false ->
  ~ (hil_state st = HIL_STATE_ON /\ n = ARMING_STATE_STANDBY) ->
  exists res,
    arming_state_transition st sf n ar fd = Done res /\
    ar_ret res = TRANSITION_DENIED /\
    ar_status res = st.
Proof.
  intros Hne Htab Hov.
  arming_cases st sf n; simpl in Htab; try discriminate Htab;
    try (exfalso; apply Hne; reflexivity);
    try (exfalso; apply Hov; split; reflexivity);
    returns; split; reflexivity.
Qed.

Lemma arming_illegal_pair_denied_witness :
  exists res,
    arming_state_transition (sample_status ARMING_STATE_INIT HIL_STATE_OFF true)
      (mk_safety false false) ARMING_STATE_ARMED disarmed 0%Z = Done res /\
    ar_ret res = TRANSITION_DENIED /\
    ar_status res = sample_status ARMING_STATE_INIT HIL_STATE_OFF true.
Proof.
  apply (arming_illegal_pair_denied
           (sample_status ARMING_STATE_INIT HIL_STATE_OFF true)).
  - simpl. discriminate.
  - reflexivity.
  - simpl. intros [H _]. discriminate H.
Defined.

(** No call brings the vehicle into [IN_AIR_RESTORE]: a status that holds it
    after the call held it before. *)
Theorem in_air_restore_never_entered (st : vehicle_status_s) (sf : safety_s)
    (n : arming_state_t) (ar : actuator_armed_s) (fd : Z) (res : arming_result) :
  arming_state_transition st sf n ar fd = Done res ->
  arming_state (ar_status res) = ARMING_STATE_IN_AIR_RESTORE ->
  arming_state st = ARMING_STATE_IN_AIR_RESTORE.
Proof.
  intros Hrun Hin.
  arming_cases st sf n; simpl in Hrun;
    try discriminate Hrun; injection Hrun as <-;
    solve [reflexivity | discriminate Hin].
Qed.

Lemma in_air_restore_never_entered_witness :
  arming_state (sample_status ARMING_STATE_IN_AIR_RESTORE HIL_STATE_OFF true)
  = ARMING_STATE_IN_AIR_RESTORE.
Proof.
  apply (in_air_restore_never_entered
           (sample_status ARMING_STATE_IN_AIR_RESTORE HIL_STATE_OFF true)
           (mk_safety true false) ARMING_STATE_INIT disarmed 0%Z
           (mk_arming_result TRANSITION_DENIED
              (sample_status ARMING_STATE_IN_AIR_RESTORE HIL_STATE_OFF true)
              disarmed
              [warnx "Invalid arming transition from ARMING_STATE_IN_AIR_RESTORE to ARMING_STATE_INIT"]));
    reflexivity.
Defined.

(** The vehicle becomes [ARMED] only on a request for [ARMED], only from
    [STANDBY] or [IN_AIR_RESTORE], and, unless it comes from
    [IN_AIR_RESTORE], only in HIL, without a safety switch, or with the
    switch off. *)
Theorem armed_only_through_safety_gate (st : vehicle_status_s) (sf : safety_s)
    (n : arming_state_t) (ar : actuator_armed_s) (fd : Z) (res : arming_result) :
  arming_state_transition st sf n ar fd = Done res ->
  ar_ret res = TRANSITION_CHANGED ->
  arming_state (ar_status res) = ARMING_STATE_ARMED ->
  n = ARMING_STATE_ARMED /\
  (arming_state st = ARMING_STATE_IN_AIR_RESTORE
   \/ (arming_state st = ARMING_STATE_STANDBY
       /\ (hil_state st = HIL_STATE_ON
           \/ safety_switch_available sf = false
           \/ safety_off sf = true))).
Proof.
  intros Hrun Hret Harmed.
  arming_cases st sf n; simpl in Hrun;
    try discriminate Hrun; injection Hrun as <-;
    try discriminate Hret; try discriminate Harmed;
    simpl; split; auto 7.
Qed.

Lemma armed_only_through_safety_gate_witness :
  ARMING_STATE_ARMED = ARMING_STATE_ARMED /\
  (ARMING_STATE_STANDBY = ARMING_STATE_IN_AIR_RESTORE
   \/ (ARMING_STATE_STANDBY = ARMING_STATE_STANDBY
       /\ (HIL_STATE_OFF = HIL_STATE_ON \/ true = false \/ true = true))).
Proof.
  apply (armed_only_through_safety_gate
           (sample_status ARMING_STATE_STANDBY HIL_STATE_OFF true)
           (mk_safety true true) ARMING_STATE_ARMED disarmed 0%Z
           (mk_arming_result TRANSITION_CHANGED
              (sample_status ARMING_STATE_ARMED HIL_STATE_OFF true)
              (mk_actuator_armed true true false) []));
    reflexivity.
Defined.

(** In HIL, with the sensors initialized, [STANDBY] is reached from every
    other state but [ARMED_ERROR], also from those the table closes
    ([STANDBY_ERROR], [REBOOT], [IN_AIR_RESTORE]); the vehicle is then
    disarmed, ready to arm and locked down. *)
Theorem hil_standby_override (st : vehicle_status_s) (sf : safety_s)
    (ar : actuator_armed_s) (fd : Z) :
  hil_state st = HIL_STATE_ON ->
  condition_system_sensors_initialized st = true ->
  is_arming_state (arming_state st) = true ->
  arming_state st <> ARMING_STATE_STANDBY ->
  arming_state st <> ARMING_STATE_ARMED_ERROR ->
  arming_state_transition st sf ARMING_STATE_STANDBY ar fd
  = Done (mk_arming_result TRANSITION_CHANGED
            (set_arming_state st ARMING_STATE_STANDBY)
            (mk_actuator_armed false true true) []).
Proof.
  intros Hhil Hsens Hcur Hns Hne.
  unfold arming_state_transition, secondary_validation.
  rewrite Hhil, Hsens.
  destruct (arming_state st); try discriminate Hcur; try congruence;
    reflexivity.
Qed.

Lemma hil_standby_override_witness :
  arming_state_transition (sample_status ARMING_STATE_REBOOT HIL_STATE_ON true)
    (mk_safety true false) ARMING_STATE_STANDBY disarmed 0%Z
  = Done (mk_arming_result TRANSITION_CHANGED
            (set_arming_state (sample_status ARMING_STATE_REBOOT HIL_STATE_ON true)
               ARMING_STATE_STANDBY)
            (mk_actuator_armed false true true) []).
Proof.
  apply (hil_standby_override (sample_status ARMING_STATE_REBOOT HIL_STATE_ON true));
    try reflexivity; simpl; discriminate.
Defined.

(** ** Arming state machine: diagnostics *)

(** The events that go to the mavlink log. *)
Definition is_mavlink (e : event) : bool :=
  match e with
  | mavlink_log_critical _ _ | mavlink_log_info _ _ => true
  | _ => false
  end.

(** A denial is never silent: [warnx] names the current and the requested
    state, and so does the mavlink log when a descriptor is given. *)
Theorem arming_denied_is_reported (st : vehicle_status_s) (sf : safety_s)
    (n : arming_state_t) (ar : actuator_armed_s) (fd : Z) (res : arming_result) :
  arming_state_transition st sf n ar fd = Done res ->
  ar_ret res = TRANSITION_DENIED ->
  exists from to,
    state_names_at (arming_state st) = Done from /\
    state_names_at n = Done to /\
    In (warnx (errMsg from to)) (ar_log res) /\
    (fd <> 0%Z -> In (mavlink_log_critical fd (errMsg from to)) (ar_log res)).
Proof.
  intros Hrun Hret.
  arming_cases st sf n; simpl in Hrun;
    try discriminate Hrun; injection Hrun as <-;
    try discriminate Hret;
    do 2 eexists; (split; [reflexivity |]); (split; [reflexivity |]);
    unfold log_critical_if; destruct (Z.eqb_spec fd 0);
    simpl; split; try tauto; auto 6.
Qed.

Lemma arming_denied_is_reported_witness :
  exists from to,
    state_names_at ARMING_STATE_INIT = Done from /\
    state_names_at ARMING_STATE_ARMED = Done to /\
    In (warnx (errMsg from to))
      [mavlink_log_critical 3 "Invalid arming transition from ARMING_STATE_INIT to ARMING_STATE_ARMED";
       warnx "Invalid arming transition from ARMING_STATE_INIT to ARMING_STATE_ARMED"] /\
    (3%Z <> 0%Z ->
     In (mavlink_log_critical 3 (errMsg from to))
       [mavlink_log_critical 3 "Invalid arming transition from ARMING_STATE_INIT to ARMING_STATE_ARMED";
        warnx "Invalid arming transition from ARMING_STATE_INIT to ARMING_STATE_ARMED"]).
Proof.
  apply (arming_denied_is_reported
           (sample_status ARMING_STATE_INIT HIL_STATE_OFF true)
           (mk_safety true false) ARMING_STATE_ARMED disarmed 3%Z
           (mk_arming_result TRANSITION_DENIED
              (sample_status ARMING_STATE_INIT HIL_STATE_OFF true) disarmed
              [mavlink_log_critical 3 "Invalid arming transition from ARMING_STATE_INIT to ARMING_STATE_ARMED";
               warnx "Invalid arming transition from ARMING_STATE_INIT to ARMING_STATE_ARMED"]));
    reflexivity.
Defined.

(** Only a denial logs, and with [mavlink_fd == 0] nothing goes to mavlink. *)
Theorem arming_logs_only_denials (st : vehicle_status_s) (sf : safety_s)
    (n : arming_state_t) (ar : actuator_armed_s) (fd : Z) (res : arming_result) :
  arming_state_transition st sf n ar fd = Done res ->
  (ar_ret res <> TRANSITION_DENIED -> ar_log res = []) /\
  (fd = 0%Z -> forallb (fun e => negb (is_mavlink e)) (ar_log res) = true).
Proof.
  intros Hrun.
  arming_cases st sf n; simpl in Hrun;
    try discriminate Hrun; injection Hrun as <-; simpl;
    (split; [intros H; solve [reflexivity | exfalso; apply H; reflexivity]
            | intros ->; reflexivity]).
Qed.

Lemma arming_logs_only_denials_witness :
  (TRANSITION_DENIED <> TRANSITION_DENIED ->
   [warnx "Invalid arming transition from ARMING_STATE_INIT to ARMING_STATE_ARMED"] = []) /\
  (0%Z = 0%Z ->
   forallb (fun e => negb (is_mavlink e))
     [warnx "Invalid arming transition from ARMING_STATE_INIT to ARMING_STATE_ARMED"]
   = true).
Proof.
  apply (arming_logs_only_denials
           (sample_status ARMING_STATE_INIT HIL_STATE_OFF true)
           (mk_safety true false) ARMING_STATE_ARMED disarmed 0%Z
           (mk_arming_result TRANSITION_DENIED
              (sample_status ARMING_STATE_INIT HIL_STATE_OFF true) disarmed
              [warnx "Invalid arming transition from ARMING_STATE_INIT to ARMING_STATE_ARMED"])).
  reflexivity.
Defined.

(** ** Arming state machine and safety interlock together *)

(** After a granted request the interlock reports safe exactly when the new
    state is a disarmed one, or HIL is on, or a safety switch is present and
    engaged. *)
Theorem is_safe_after_change (st : vehicle_status_s) (sf : safety_s)
    (n : arming_state_t) (ar : actuator_armed_s) (fd : Z) (res : arming_result) :
  arming_state_transition st sf n ar fd = Done res ->
  ar_ret res = TRANSITION_CHANGED ->
  is_safe (ar_status res) sf (ar_armed res)
  = (negb (arming_eqb (arming_state (ar_status res)) ARMING_STATE_ARMED
           || arming_eqb (arming_state (ar_status res)) ARMING_STATE_ARMED_ERROR)
     || hil_eqb (hil_state st) HIL_STATE_ON
     || (safety_switch_available sf && negb (safety_off sf))).
Proof.
  intros Hrun Hret.
  destruct (arming_state_transition_inv _ _ _ _ _ _ Hrun)
    as [(Hr & _) | [(Hr & _) | (_ & _ & Hl & Ha & _)]];
    try congruence.
  unfold is_safe. rewrite Hl, Ha.
  destruct (_ || _), (hil_eqb _ _), (safety_switch_available sf), (safety_off sf);
    reflexivity.
Qed.

Lemma is_safe_after_change_witness :
  is_safe (sample_status ARMING_STATE_ARMED HIL_STATE_OFF true) (mk_safety true true)
    (mk_actuator_armed true true false)
  = false.
Proof.
  apply (is_safe_after_change
           (sample_status ARMING_STATE_STANDBY HIL_STATE_OFF true)
           (mk_safety true true) ARMING_STATE_ARMED disarmed 0%Z
           (mk_arming_result TRANSITION_CHANGED
              (sample_status ARMING_STATE_ARMED HIL_STATE_OFF true)
              (mk_actuator_armed true true false) []));
    reflexivity.
Defined.

(** In HIL every request for another state, granted or denied, leaves the
    armed record in lockdown, so the interlock reports safe. *)
Theorem hil_attempt_is_safe (st : vehicle_status_s) (sf : safety_s)
    (n : arming_state_t) (ar : actuator_armed_s) (fd : Z) (res : arming_result) :
  hil_state st = HIL_STATE_ON ->
  arming_state_transition st sf n ar fd = Done res ->
  ar_ret res <> TRANSITION_NOT_CHANGED ->
  lockdown (ar_armed res) = true /\
  is_safe (ar_status res) sf (ar_armed res) = true.
Proof.
  intros Hhil Hrun Hret.
  destruct (arming_state_transition_inv _ _ _ _ _ _ Hrun)
    as [(Hr & _) | [(_ & _ & _ & Ha) | (_ & _ & Hl & _)]];
    try congruence.
  - rewrite Ha, Hhil. unfold is_safe. simpl. split; [reflexivity |].
    destruct (armed ar); reflexivity.
  - rewrite Hhil in Hl. unfold is_safe. rewrite Hl. split; [reflexivity |].
    destruct (armed (ar_armed res)); reflexivity.
Qed.

Lemma hil_attempt_is_safe_witness :
  lockdown (mk_actuator_armed true false true) = true /\
  is_safe (sample_status ARMING_STATE_ARMED HIL_STATE_ON true) (mk_safety false false)
    (mk_actuator_armed true false true) = true.
Proof.
  apply (hil_attempt_is_safe
           (sample_status ARMING_STATE_ARMED HIL_STATE_ON true)
           (mk_safety false false) ARMING_STATE_INIT
           (mk_actuator_armed true false false) 0%Z
           (mk_arming_result TRANSITION_DENIED
              (sample_status ARMING_STATE_ARMED HIL_STATE_ON true)
              (mk_actuator_armed true false true)
              [warnx "Invalid arming transition from ARMING_STATE_ARMED to ARMING_STATE_INIT"])).
  - reflexivity.
  - reflexivity.
  - simpl. discriminate.
Defined.

(** Outside HIL the gate on arming and the interlock are complementary: a
    vehicle just armed from [STANDBY] is never reported safe. *)
Theorem armed_from_standby_not_safe (st : vehicle_status_s) (sf : safety_s)
    (ar : actuator_armed_s) (fd : Z) (res : arming_result) :
  hil_state st = HIL_STATE_OFF ->
  arming_state st = ARMING_STATE_STANDBY ->
  arming_state_transition st sf ARMING_STATE_ARMED ar fd = Done res ->
  ar_ret res = TRANSITION_CHANGED ->
  is_safe (ar_status res) sf (ar_armed res) = false.
Proof.
  intros Hhil Hcur Hrun Hret.
  unfold arming_state_transition, secondary_validation in Hrun.
  rewrite Hcur, Hhil in Hrun. simpl in Hrun.
  destruct sf as [sw off]. simpl in *.
  destruct sw, off; simpl in Hrun; injection Hrun as <-;
    try discriminate Hret; reflexivity.
Qed.

Lemma armed_from_standby_not_safe_witness :
  is_safe (sample_status ARMING_STATE_ARMED HIL_STATE_OFF true) (mk_safety false false)
    (mk_actuator_armed true true false)
  = false.
Proof.
  apply (armed_from_standby_not_safe
           (sample_status ARMING_STATE_STANDBY HIL_STATE_OFF true)
           (mk_safety false false) disarmed 0%Z
           (mk_arming_result TRANSITION_CHANGED
              (sample_status ARMING_STATE_ARMED HIL_STATE_OFF true)
              (mk_actuator_armed true true false) []));
    reflexivity.
Defined.

(** ** Main state selector: frame, repetition and the order of the modes *)

Lemma main_eqb_refl (m : main_state_t) : main_eqb m m = true.
Proof. apply main_eqb_true. reflexivity. Qed.

(** The three results of [main_state_transition], told apart. *)
Lemma main_state_transition_cases (st : vehicle_status_s) (m : main_state_t) :
  main_state_transition st m = (TRANSITION_DENIED, st)
  \/ (main_state_transition st m = (TRANSITION_NOT_CHANGED, st)
      /\ main_state st = m)
  \/ (main_state_transition st m = (TRANSITION_CHANGED, set_main_state st m)
      /\ main_state st <> m).
Proof.
  unfold main_state_transition.
  destruct (main_eqb (main_state st) m) eqn:Em;
    [apply main_eqb_true in Em | assert (main_state st <> m)
       by (intros E; apply main_eqb_true in E; congruence)];
    destruct m; simpl;
    repeat match goal with
           | |- context [if ?c then TRANSITION_CHANGED else _] => destruct c; simpl
           end;
    auto.
Qed.

(** [main_state_transition] writes no field but [main_state], and that one
    only when it returns [TRANSITION_CHANGED]; [TRANSITION_NOT_CHANGED] is
    returned only for the mode the vehicle is already in, and after any
    granted request the vehicle is in the requested mode. *)
Theorem main_state_transition_frame (st : vehicle_status_s) (m : main_state_t) :
  snd (main_state_transition st m)
  = match fst (main_state_transition st m) with
    | TRANSITION_CHANGED => set_main_state st m
    | _ => st
    end /\
  (fst (main_state_transition st m) = TRANSITION_NOT_CHANGED -> main_state st = m) /\
  (fst (main_state_transition st m) = TRANSITION_CHANGED -> main_state st <> m) /\
  (fst (main_state_transition st m) <> TRANSITION_DENIED ->
   main_state (snd (main_state_transition st m)) = m).
Proof.
  destruct (main_state_transition_cases st m) as [H | [[H E] | [H E]]];
    rewrite H; simpl; repeat split; auto; intros; congruence.
Qed.

(** Asking twice is asking once: the second call of the same request leaves
    the status of the first, returning [TRANSITION_DENIED] after a denial and
    [TRANSITION_NOT_CHANGED] after a grant. *)
Theorem main_state_transition_repeated (st : vehicle_status_s) (m : main_state_t) :
  main_state_transition (snd (main_state_transition st m)) m
  = (match fst (main_state_transition st m) with
     | TRANSITION_DENIED => TRANSITION_DENIED
     | _ => TRANSITION_NOT_CHANGED
     end,
     snd (main_state_transition st m)).
Proof.
  destruct (main_state_transition_cases st m) as [H | [[H E] | [H E]]].
  - rewrite H. simpl. exact H.
  - rewrite H. simpl. exact H.
  - rewrite H. simpl. revert H.
    destruct st as [ts ms ns a h fs rw si lp gp la hp rc dl].
    unfold main_state_transition. simpl. rewrite main_eqb_refl.
    destruct m, rw, la, gp, lp, hp; simpl;
      solve [reflexivity | discriminate
            | destruct (main_eqb ms _); discriminate].
Qed.

(** The modes are ordered by what they need: when [AUTO_RTL] would be
    granted, so would every mode; when [AUTO_MISSION] would be granted, so
    would every mode but [AUTO_RTL]. *)
Theorem main_state_grant_order (st : vehicle_status_s) (m : main_state_t) :
  m <> MAIN_STATE_MAX ->
  (fst (main_state_transition st MAIN_STATE_AUTO_RTL) <> TRANSITION_DENIED ->
   fst (main_state_transition st m) <> TRANSITION_DENIED) /\
  (m <> MAIN_STATE_AUTO_RTL ->
   fst (main_state_transition st MAIN_STATE_AUTO_MISSION) <> TRANSITION_DENIED ->
   fst (main_state_transition st m) <> TRANSITION_DENIED).
Proof.
  intros Hmax. unfold main_state_transition.
  destruct (condition_global_position_valid st), (condition_home_position_valid st);
    simpl; (split; [intros Hg | intros Hr Hg]);
    try (exfalso; apply Hg; reflexivity);
    destruct m; try congruence; simpl;
    rewrite ?orb_true_r; simpl;
    match goal with
    | |- context [main_eqb ?x ?y] => destruct (main_eqb x y)
    end; simpl; discriminate.
Qed.

Lemma main_state_grant_order_witness :
  let st :=
    mk_vehicle_status 0 MAIN_STATE_MANUAL NAVIGATION_STATE_MANUAL
      ARMING_STATE_STANDBY HIL_STATE_OFF false true true
      false true false true false false in
  (fst (main_state_transition st MAIN_STATE_AUTO_RTL) <> TRANSITION_DENIED ->
   fst (main_state_transition st MAIN_STATE_POSCTL) <> TRANSITION_DENIED) /\
  (MAIN_STATE_POSCTL <> MAIN_STATE_AUTO_RTL ->
   fst (main_state_transition st MAIN_STATE_AUTO_MISSION) <> TRANSITION_DENIED ->
   fst (main_state_transition st MAIN_STATE_POSCTL) <> TRANSITION_DENIED).
Proof.
  intros st.
  apply (main_state_grant_order st MAIN_STATE_POSCTL).
  discriminate.
Defined.

(** ** HIL state transition: what is blocked and what is published *)

(** The seven [continue] guards of the [readdir] loop taken together: the
    entries of [/dev] that are passed over. *)
Definition skips (d_name : string) : bool :=
  strncmp3_eq "tty" d_name || strncmp3_eq "mtd" d_name
  || strncmp3_eq "ram" d_name || strncmp3_eq "mmc" d_name
  || String.eqb "mavlink" d_name || String.eqb "console" d_name
  || String.eqb "null" d_name.

Definition is_publish (e : event) : bool :=
  match e with
  | orb_publish_vehicle_status _ _ => true
  | _ => false
  end.

Lemma block_entry_skips (w : devices) (d_name : string) :
  skips d_name = true -> block_entry w d_name = [].
Proof.
  unfold skips, block_entry.
  destruct (strncmp3_eq "tty" d_name); [reflexivity |].
  destruct (strncmp3_eq "mtd" d_name); [reflexivity |].
  destruct (strncmp3_eq "ram" d_name); [reflexivity |].
  destruct (strncmp3_eq "mmc" d_name); [reflexivity |].
  destruct (String.eqb "mavlink" d_name); [reflexivity |].
  destruct (String.eqb "console" d_name); [reflexivity |].
  destruct (String.eqb "null" d_name); [reflexivity | discriminate].
Qed.

Lemma block_entry_sensor (w : devices) (d_name : string) :
  skips d_name = false ->
  block_entry w d_name
  = if negb (dev_opens w (devname_of d_name))
    then [warn ("failed opening device " ++ devname_of d_name)]
    else [ioctl_DEVIOCSPUBBLOCK (devname_of d_name);
          printf ("Disabling " ++ devname_of d_name ++ ": "
                  ++ (if dev_blocks w (devname_of d_name) then "OK" else "ERROR")
                  ++ newline)].
Proof.
  unfold skips, block_entry.
  destruct (strncmp3_eq "tty" d_name); [discriminate |].
  destruct (strncmp3_eq "mtd" d_name); [discriminate |].
  destruct (strncmp3_eq "ram" d_name); [discriminate |].
  destruct (strncmp3_eq "mmc" d_name); [discriminate |].
  destruct (String.eqb "mavlink" d_name); [discriminate |].
  destruct (String.eqb "console" d_name); [discriminate |].
  destruct (String.eqb "null" d_name); [discriminate | reflexivity].
Qed.

(** The loop blocks the entries that are not passed over and that open, under
    their [/dev] name, and no other device. *)
Lemma block_entries_ioctl (w : devices) (entries : list string) (d : string) :
  In (ioctl_DEVIOCSPUBBLOCK d) (block_entries w entries)
  <-> exists d_name,
        In d_name entries /\ skips d_name = false /\
        d = devname_of d_name /\ dev_opens w d = true.
Proof.
  induction entries as [| e rest IH]; simpl.
  - split; [contradiction | intros (x & [] & _)].
  - rewrite in_app_iff, IH. clear IH. split.
    + intros [Hin | (x & Hx & Hrest)].
      * destruct (skips e) eqn:Es.
        -- rewrite (block_entry_skips w e Es) in Hin. contradiction.
        -- rewrite (block_entry_sensor w e Es) in Hin.
           destruct (dev_opens w (devname_of e)) eqn:Eo; simpl in Hin.
           ++ destruct Hin as [[= <-] | [Hin | []]]; [| discriminate Hin].
              exists e. auto.
           ++ destruct Hin as [Hin | []]. discriminate Hin.
      * exists x. tauto.
    + intros (x & [<- | Hx] & Hs & -> & Ho).
      * left. rewrite (block_entry_sensor w e Hs), Ho. simpl. auto.
      * right. exists x. auto.
Qed.

Lemma block_entries_no_publish (w : devices) (entries : list string) :
  filter is_publish (block_entries w entries) = [].
Proof.
  induction entries as [| e rest IH]; simpl; [reflexivity |].
  rewrite filter_app, IH, app_nil_r.
  destruct (skips e) eqn:Es.
  - rewrite (block_entry_skips w e Es). reflexivity.
  - rewrite (block_entry_sensor w e Es).
    destruct (negb _); reflexivity.
Qed.

(** A call blocks a device only when it switches HIL on, and then it blocks
    exactly the entries of [/dev] that are not serial ports, mtd, ram or MMC
    devices, [mavlink], [console] or [null], and that can be opened. *)
Theorem hil_blocks_exactly_sensors (w : devices) (new_state : hil_state_t)
    (status_pub : Z) (st : vehicle_status_s) (fd : Z) (d : string) :
  In (ioctl_DEVIOCSPUBBLOCK d)
     (snd (hil_state_transition w new_state status_pub st fd))
  <-> (fst (fst (hil_state_transition w new_state status_pub st fd))
       = TRANSITION_CHANGED /\
       exists entries d_name,
         dev_entries w = Some entries /\ In d_name entries /\
         skips d_name = false /\ d = devname_of d_name /\
         dev_opens w d = true).
Proof.
  unfold hil_state_transition.
  destruct (hil_eqb (hil_state st) new_state); simpl.
  - split; [contradiction | intros [H _]; discriminate H].
  - destruct new_state; simpl.
    + split; [intros [H | []]; discriminate H | intros [H _]; discriminate H].
    + destruct (_ || _); simpl.
      * destruct (dev_entries w) as [entries |]; simpl.
        -- rewrite !in_app_iff, block_entries_ioctl. simpl. split.
           ++ intros [[(x & Hx) | [H | []]] | [H | []]]; try discriminate H.
              split; [reflexivity |]. exists entries, x. tauto.
           ++ intros (_ & l & x & [= <-] & Hx). left. left. exists x. exact Hx.
        -- split; [intros [H | []]; discriminate H | intros [H _]; discriminate H].
      * split; [intros [H | []]; discriminate H | intros [H _]; discriminate H].
Qed.

(** The status is published exactly when HIL is switched, once, after every
    other event, and what is published is the status the call returns. *)
Theorem hil_publishes_on_change_only (w : devices) (new_state : hil_state_t)
    (status_pub : Z) (st : vehicle_status_s) (fd : Z) :
  filter is_publish (snd (hil_state_transition w new_state status_pub st fd))
  = match fst (fst (hil_state_transition w new_state status_pub st fd)) with
    | TRANSITION_CHANGED =>
        [orb_publish_vehicle_status status_pub
           (snd (fst (hil_state_transition w new_state status_pub st fd)))]
    | _ => []
    end /\
  (fst (fst (hil_state_transition w new_state status_pub st fd)) = TRANSITION_CHANGED ->
   last (snd (hil_state_transition w new_state status_pub st fd)) (warnx "")
   = orb_publish_vehicle_status status_pub
       (snd (fst (hil_state_transition w new_state status_pub st fd)))).
Proof.
  unfold hil_state_transition.
  destruct (hil_eqb (hil_state st) new_state); simpl.
  - split; [reflexivity | discriminate].
  - destruct new_state; simpl; [split; [reflexivity | discriminate] |].
    destruct (_ || _); simpl; [| split; [reflexivity | discriminate]].
    destruct (dev_entries w) as [entries |]; simpl;
      [| split; [reflexivity | discriminate]].
    split.
    + rewrite !filter_app, block_entries_no_publish. reflexivity.
    + intros _. apply last_last.
Qed.

(** HIL is switched only on, only from [INIT], [STANDBY] or [STANDBY_ERROR]
    and only when [/dev] can be listed; then the call writes [hil_state] and
    the timestamp, and in every other case it writes nothing. *)
Theorem hil_state_transition_frame (w : devices) (new_state : hil_state_t)
    (status_pub : Z) (st : vehicle_status_s) (fd : Z) :
  (fst (fst (hil_state_transition w new_state status_pub st fd)) = TRANSITION_CHANGED ->
   hil_state st = HIL_STATE_OFF /\ new_state = HIL_STATE_ON /\
   (arming_state st = ARMING_STATE_INIT \/ arming_state st = ARMING_STATE_STANDBY
    \/ arming_state st = ARMING_STATE_STANDBY_ERROR) /\
   dev_entries w <> None /\
   snd (fst (hil_state_transition w new_state status_pub st fd))
   = set_timestamp (set_hil_state st HIL_STATE_ON) (hrt_absolute_time w)) /\
  (fst (fst (hil_state_transition w new_state status_pub st fd)) <> TRANSITION_CHANGED ->
   snd (fst (hil_state_transition w new_state status_pub st fd)) = st).
Proof.
  unfold hil_state_transition.
  destruct (hil_state st) eqn:Eh, new_state; simpl;
    try (split; [discriminate | reflexivity]).
  destruct (arming_state st) eqn:Ea; simpl;
    try (split; [discriminate | reflexivity]);
    destruct (dev_entries w); simpl;
    try (split; [discriminate | reflexivity]);
    (split; [intros _ | intros H; exfalso; apply H; reflexivity]);
    repeat split; auto; discriminate.
Qed.

Lemma hil_off_to_on_witness :
  fst (fst (hil_state_transition (mk_devices (Some ["ttyS0"; "accel0"])
                                    (fun _ => true) (fun _ => true) 42)
              HIL_STATE_ON 1 (sample_status ARMING_STATE_STANDBY HIL_STATE_OFF true) 0))
  = TRANSITION_CHANGED.
Proof.
  apply (hil_off_to_on (mk_devices (Some ["ttyS0"; "accel0"])
                          (fun _ => true) (fun _ => true) 42)
           1 (sample_status ARMING_STATE_STANDBY HIL_STATE_OFF true) 0).
  reflexivity.
Defined.

(** ** HIL state transition: the device name buffer *)

Lemma substring_0_length (k : nat) (s : string) :
  String.length (String.substring 0 k s) = Nat.min k (String.length s).
Proof.
  revert s. induction k as [| k IH]; intros [| c s]; simpl; try reflexivity.
  rewrite IH. reflexivity.
Qed.

Lemma substring_0_all (k : nat) (s : string) :
  String.length s <= k -> String.substring 0 k s = s.
Proof.
  revert s. induction k as [| k IH]; intros [| c s]; simpl; intros H;
    try reflexivity; try lia.
  rewrite IH by lia. reflexivity.
Qed.

(** The name handed to [open] fits [char devname[24]]: it is [/dev/]
    followed by the first 18 characters of the entry, so an entry of at most
    18 characters is opened under its own name and a longer one under a
    truncated name. *)
Theorem devname_fits_buffer (d_name : string) :
  String.length (devname_of d_name) <= 23 /\
  devname_of d_name = "/dev/" ++ String.substring 0 18 d_name /\
  (String.length d_name <= 18 -> devname_of d_name = "/dev/" ++ d_name) /\
  (18 < String.length d_name -> devname_of d_name <> "/dev/" ++ d_name).
Proof.
  assert (Hsub : devname_of d_name = "/dev/" ++ String.substring 0 18 d_name)
    by reflexivity.
  split; [| split; [| split]].
  - unfold devname_of. rewrite substring_0_length. lia.
  - exact Hsub.
  - intros Hlen. rewrite Hsub, substring_0_all by exact Hlen. reflexivity.
  - intros Hlen Heq. rewrite Hsub in Heq.
    assert (Hl : String.length (String.substring 0 18 d_name) = String.length d_name)
      by (injection Heq as ->; reflexivity).
    rewrite substring_0_length in Hl. lia.
Qed.

(** ** HIL and arming together *)

(** Once HIL has been switched on from [STANDBY], arming no longer waits for
    the safety switch, but the armed vehicle is locked down and the
    interlock reports safe. *)
Theorem hil_arming_bypasses_switch (w : devices) (status_pub : Z)
    (st : vehicle_status_s) (fd : Z) (sf : safety_s) (ar : actuator_armed_s)
    (fd' : Z) :
  arming_state st = ARMING_STATE_STANDBY ->
  fst (fst (hil_state_transition w HIL_STATE_ON status_pub st fd))
  = TRANSITION_CHANGED ->
  exists res,
    arming_state_transition
      (snd (fst (hil_state_transition w HIL_STATE_ON status_pub st fd)))
      sf ARMING_STATE_ARMED ar fd' = Done res /\
    ar_ret res = TRANSITION_CHANGED /\
    arming_state (ar_status res) = ARMING_STATE_ARMED /\
    ar_armed res = mk_actuator_armed true true true /\
    is_safe (ar_status res) sf (ar_armed res) = true.
Proof.
  intros Hcur Hch. revert Hch.
  unfold hil_state_transition. rewrite Hcur.
  destruct (hil_state st); simpl; [| discriminate].
  destruct (dev_entries w); simpl; [intros _ | discriminate].
  unfold arming_state_transition, secondary_validation. simpl. rewrite Hcur.
  simpl. returns. repeat split.
Qed.

Lemma hil_arming_bypasses_switch_witness :
  exists res,
    arming_state_transition
      (snd (fst (hil_state_transition (mk_devices (Some []) (fun _ => true)
                                         (fun _ => true) 42)
                   HIL_STATE_ON 1
                   (sample_status ARMING_STATE_STANDBY HIL_STATE_OFF true) 0)))
      (mk_safety true false) ARMING_STATE_ARMED disarmed 0 = Done res /\
    ar_ret res = TRANSITION_CHANGED /\
    arming_state (ar_status res) = ARMING_STATE_ARMED /\
    ar_armed res = mk_actuator_armed true true true /\
    is_safe (ar_status res) (mk_safety true false) (ar_armed res) = true.
Proof.
  apply (hil_arming_bypasses_switch
           (mk_devices (Some []) (fun _ => true) (fun _ => true) 42) 1
           (sample_status ARMING_STATE_STANDBY HIL_STATE_OFF true) 0);
    reflexivity.
Defined.

(** ** Navigation state: repetition, stale values and the disarmed vehicle *)

Lemma nav_eqb_refl (x : navigation_state_t) : nav_eqb x x = true.
Proof. unfold nav_eqb. destruct (navigation_state_eq_dec x x); congruence. Qed.

(** [set_nav_state] in closed form: the signal each main state requires,
    the navigation state selected when none is missing, and the one selected
    in failsafe. *)
Definition signal_missing (st : vehicle_status_s) : bool :=
  match main_state st with
  | MAIN_STATE_ACRO | MAIN_STATE_MANUAL
  | MAIN_STATE_ALTCTL | MAIN_STATE_POSCTL => rc_signal_lost st
  | MAIN_STATE_AUTO_MISSION =>
      data_link_lost st || negb (condition_global_position_valid st)
  | MAIN_STATE_AUTO_LOITER =>
      data_link_lost st || negb (condition_local_position_valid st)
  | MAIN_STATE_AUTO_RTL =>
      negb (condition_global_position_valid st)
      || negb (condition_home_position_valid st)
  | MAIN_STATE_MAX => false
  end.

Definition nominal_nav_state (st : vehicle_status_s) : navigation_state_t :=
  match main_state st with
  | MAIN_STATE_ACRO => NAVIGATION_STATE_ACRO
  | MAIN_STATE_MANUAL => NAVIGATION_STATE_MANUAL
  | MAIN_STATE_ALTCTL => NAVIGATION_STATE_ALTCTL
  | MAIN_STATE_POSCTL => NAVIGATION_STATE_POSCTL
  | MAIN_STATE_AUTO_MISSION =>
      if nav_armed st then NAVIGATION_STATE_AUTO_MISSION
      else NAVIGATION_STATE_AUTO_LOITER
  | MAIN_STATE_AUTO_LOITER => NAVIGATION_STATE_AUTO_LOITER
  | MAIN_STATE_AUTO_RTL =>
      if nav_armed st then NAVIGATION_STATE_AUTO_RTL
      else NAVIGATION_STATE_AUTO_LOITER
  | MAIN_STATE_MAX => nav_state st
  end.

Definition failsafe_nav_state (st : vehicle_status_s) : navigation_state_t :=
  if condition_global_position_valid st && condition_home_position_valid st
  then NAVIGATION_STATE_AUTO_RTL
  else if condition_local_position_valid st then NAVIGATION_STATE_LAND
  else if condition_local_altitude_valid st then NAVIGATION_STATE_DESCEND
  else NAVIGATION_STATE_TERMINATION.

Definition resolved_nav_state (st : vehicle_status_s) : navigation_state_t :=
  if nav_armed st && signal_missing st
  then failsafe_nav_state st
  else nominal_nav_state st.

Lemma set_nav_state_closed_form (st : vehicle_status_s) :
  set_nav_state st
  = (negb (nav_eqb (resolved_nav_state st) (nav_state st)),
     set_nav (set_failsafe st (nav_armed st && signal_missing st))
       (resolved_nav_state st)).
Proof.
  unfold set_nav_state, resolved_nav_state, nav_armed, signal_missing,
    nominal_nav_state, failsafe_nav_state, nav_armed.
  destruct st as [ts ms ns a h fs rw si lp gp la hp rc dl]. simpl.
  destruct (arming_eqb a ARMING_STATE_ARMED || arming_eqb a ARMING_STATE_ARMED_ERROR);
    destruct ms, rc, dl, gp, hp, lp, la; reflexivity.
Qed.

(** Case analysis over everything [set_nav_state] branches on, after
    [set_nav_state_closed_form]. *)
Ltac nav_cases st :=
  unfold resolved_nav_state, nav_armed, signal_missing, nominal_nav_state,
    failsafe_nav_state, nav_armed in *;
  destruct st as [ts ms ns a h fs rw si lp gp la hp rc dl]; simpl in *;
  destruct (arming_eqb a ARMING_STATE_ARMED || arming_eqb a ARMING_STATE_ARMED_ERROR);
  destruct ms, rc, dl, gp, hp, lp, la; simpl in *.

(** Resolving twice is resolving once: a second call on the status the first
    one left changes nothing and reports no change. *)
Theorem set_nav_state_idempotent (st : vehicle_status_s) :
  set_nav_state (snd (set_nav_state st)) = (false, snd (set_nav_state st)).
Proof.
  rewrite !set_nav_state_closed_form. simpl.
  nav_cases st; rewrite ?nav_eqb_refl; reflexivity.
Qed.

(** For the seven main states the result does not depend on the failsafe flag
    and the navigation state found on entry: both are overwritten. *)
Theorem set_nav_state_overwrites (st : vehicle_status_s) (f : bool)
    (n : navigation_state_t) :
  main_state st <> MAIN_STATE_MAX ->
  snd (set_nav_state (set_nav (set_failsafe st f) n)) = snd (set_nav_state st).
Proof.
  intros Hmax. rewrite !set_nav_state_closed_form. simpl.
  nav_cases st; solve [reflexivity | congruence].
Qed.

Lemma set_nav_state_overwrites_witness :
  snd (set_nav_state
         (set_nav (set_failsafe (sample_status ARMING_STATE_ARMED HIL_STATE_OFF true) true)
            NAVIGATION_STATE_TERMINATION))
  = snd (set_nav_state (sample_status ARMING_STATE_ARMED HIL_STATE_OFF true)).
Proof.
  apply (set_nav_state_overwrites
           (sample_status ARMING_STATE_ARMED HIL_STATE_OFF true)).
  simpl. discriminate.
Defined.

(** With [main_state] at [MAIN_STATE_MAX] no navigation state is selected:
    the one found on entry, however stale, is kept, the failsafe flag is
    cleared whatever the signals say, and no change is reported. *)
Theorem set_nav_state_unknown_main_state (st : vehicle_status_s) :
  main_state st = MAIN_STATE_MAX ->
  set_nav_state st = (false, set_failsafe st false).
Proof.
  intros Hmax. unfold set_nav_state. simpl. rewrite Hmax. simpl.
  rewrite nav_eqb_refl. reflexivity.
Qed.

Lemma set_nav_state_unknown_main_state_witness :
  set_nav_state
    (mk_vehicle_status 0 MAIN_STATE_MAX NAVIGATION_STATE_AUTO_MISSION
       ARMING_STATE_ARMED HIL_STATE_OFF true true true
       false false false false true true)
  = (false,
     mk_vehicle_status 0 MAIN_STATE_MAX NAVIGATION_STATE_AUTO_MISSION
       ARMING_STATE_ARMED HIL_STATE_OFF false true true
       false false false false true true).
Proof.
  apply (set_nav_state_unknown_main_state
           (mk_vehicle_status 0 MAIN_STATE_MAX NAVIGATION_STATE_AUTO_MISSION
              ARMING_STATE_ARMED HIL_STATE_OFF true true true
              false false false false true true)).
  reflexivity.
Defined.

(** A vehicle that is not armed is never put in failsafe, whatever signal is
    missing, and never flies a mission or a return: the manual modes map to
    themselves and every automatic mode to [AUTO_LOITER]. *)
Theorem set_nav_state_disarmed (st : vehicle_status_s) :
  nav_armed st = false ->
  failsafe (snd (set_nav_state st)) = false /\
  nav_state (snd (set_nav_state st))
  = match main_state st with
    | MAIN_STATE_MANUAL => NAVIGATION_STATE_MANUAL
    | MAIN_STATE_ALTCTL => NAVIGATION_STATE_ALTCTL
    | MAIN_STATE_POSCTL => NAVIGATION_STATE_POSCTL
    | MAIN_STATE_ACRO => NAVIGATION_STATE_ACRO
    | MAIN_STATE_AUTO_MISSION
    | MAIN_STATE_AUTO_LOITER
    | MAIN_STATE_AUTO_RTL => NAVIGATION_STATE_AUTO_LOITER
    | MAIN_STATE_MAX => nav_state st
    end.
Proof.
  unfold set_nav_state, nav_armed. intros Hd.
  destruct st as [ts ms ns a h fs rw si lp gp la hp rc dl]. simpl in *.
  rewrite Hd. destruct ms; simpl; rewrite ?andb_false_r; simpl; auto.
Qed.

Lemma set_nav_state_disarmed_witness :
  failsafe (snd (set_nav_state
                   (mk_vehicle_status 0 MAIN_STATE_AUTO_MISSION NAVIGATION_STATE_MANUAL
                      ARMING_STATE_STANDBY HIL_STATE_OFF false true true
                      false false false false true true)))
  = false /\
  nav_state (snd (set_nav_state
                    (mk_vehicle_status 0 MAIN_STATE_AUTO_MISSION NAVIGATION_STATE_MANUAL
                       ARMING_STATE_STANDBY HIL_STATE_OFF false true true
                       false false false false true true)))
  = NAVIGATION_STATE_AUTO_LOITER.
Proof.
  apply (set_nav_state_disarmed
           (mk_vehicle_status 0 MAIN_STATE_AUTO_MISSION NAVIGATION_STATE_MANUAL
              ARMING_STATE_STANDBY HIL_STATE_OFF false true true
              false false false false true true)).
  reflexivity.
Defined.

(** [LAND], [DESCEND] and [TERMINATION] are selected only for an armed vehicle
    in failsafe, and [TERMINATION] only when neither a global position with a
    home position, nor a local position, nor a local altitude is valid. *)
Theorem failsafe_states_only_in_failsafe (st : vehicle_status_s) :
  main_state st <> MAIN_STATE_MAX ->
  nav_state (snd (set_nav_state st)) = NAVIGATION_STATE_LAND
  \/ nav_state (snd (set_nav_state st)) = NAVIGATION_STATE_DESCEND
  \/ nav_state (snd (set_nav_state st)) = NAVIGATION_STATE_TERMINATION ->
  failsafe (snd (set_nav_state st)) = true /\
  nav_armed st = true /\
  (nav_state (snd (set_nav_state st)) = NAVIGATION_STATE_TERMINATION ->
   (condition_global_position_valid st && condition_home_position_valid st) = false /\
   condition_local_position_valid st = false /\
   condition_local_altitude_valid st = false).
Proof.
  rewrite !set_nav_state_closed_form. simpl. intros Hmax Hnav.
  nav_cases st; try congruence;
    try (destruct Hnav as [H | [H | H]]; discriminate H);
    (split; [reflexivity | split; [reflexivity |]]);
    intros Ht; try discriminate Ht; repeat split.
Qed.

Lemma failsafe_states_only_in_failsafe_witness :
  let st :=
    mk_vehicle_status 0 MAIN_STATE_MANUAL NAVIGATION_STATE_MANUAL
      ARMING_STATE_ARMED HIL_STATE_OFF false true true
      false true false false true false in
  failsafe (snd (set_nav_state st)) = true /\
  nav_armed st = true /\
  (nav_state (snd (set_nav_state st)) = NAVIGATION_STATE_TERMINATION ->
   (condition_global_position_valid st && condition_home_position_valid st) = false /\
   condition_local_position_valid st = false /\
   condition_local_altitude_valid st = false).
Proof.
  intros st.
  apply (failsafe_states_only_in_failsafe st).
  - simpl. discriminate.
  - right. right. reflexivity.
Defined.

(** [set_nav_state] writes only [failsafe] and [nav_state]: the status it
    returns is the one it was given with those two fields replaced, so the
    timestamp, the main, arming and HIL states, the vehicle type, the sensor
    and validity conditions and the two link flags are all as they were. *)
Theorem set_nav_state_writes_only (st : vehicle_status_s) :
  snd (set_nav_state st)
  = set_nav (set_failsafe st (failsafe (snd (set_nav_state st))))
      (nav_state (snd (set_nav_state st))) /\
  timestamp (snd (set_nav_state st)) = timestamp st /\
  main_state (snd (set_nav_state st)) = main_state st /\
  arming_state (snd (set_nav_state st)) = arming_state st /\
  hil_state (snd (set_nav_state st)) = hil_state st /\
  is_rotary_wing (snd (set_nav_state st)) = is_rotary_wing st /\
  condition_system_sensors_initialized (snd (set_nav_state st))
  = condition_system_sensors_initialized st /\
  condition_local_position_valid (snd (set_nav_state st))
  = condition_local_position_valid st /\
  condition_global_position_valid (snd (set_nav_state st))
  = condition_global_position_valid st /\
  condition_local_altitude_valid (snd (set_nav_state st))
  = condition_local_altitude_valid st /\
  condition_home_position_valid (snd (set_nav_state st))
  = condition_home_position_valid st /\
  rc_signal_lost (snd (set_nav_state st)) = rc_signal_lost st /\
  data_link_lost (snd (set_nav_state st)) = data_link_lost st.
Proof.
  rewrite set_nav_state_closed_form. simpl.
  destruct st as [ts ms ns a h fs rw si lp gp la hp rc dl]. simpl.
  split; [reflexivity |]. repeat split.
Qed.

(** ** Examples for the lemmas of the first part *)

Lemma arming_state_transition_returns_witness :
  exists res,
    arming_state_transition (sample_status ARMING_STATE_REBOOT HIL_STATE_OFF true)
      (mk_safety true false) ARMING_STATE_IN_AIR_RESTORE disarmed 7%Z = Done res.
Proof.
  apply (arming_state_transition_returns
           (sample_status ARMING_STATE_REBOOT HIL_STATE_OFF true));
    reflexivity.
Defined.

Lemma arm_from_standby_granted_witness :
  exists res,
    arming_state_transition (sample_status ARMING_STATE_STANDBY HIL_STATE_OFF true)
      (mk_safety false false) ARMING_STATE_ARMED disarmed 0%Z = Done res /\
    ar_ret res = TRANSITION_CHANGED /\
    arming_state (ar_status res) = ARMING_STATE_ARMED.
Proof.
  apply (arm_from_standby_granted
           (sample_status ARMING_STATE_STANDBY HIL_STATE_OFF true)).
  - reflexivity.
  - right. left. reflexivity.
Defined.
